(** * AgentVision: the browser tools of [agent.py] and [zepto.py]

    A shallow embedding of the two scripts.  Every tool is a Python
    function that talks to a live browser through helium and selenium
    and returns a message string; here a tool is a computation in a
    small state-and-exception monad over an abstract browser, and the
    browser itself is a record of operations that may each return a
    value or raise.  Results about the tools are stated for every
    browser. *)

From Stdlib Require Import String Ascii List Bool NArith Arith Lia.
Import ListNotations.
Open Scope string_scope.

(** ** Python values *)

(** Exception classes that can reach the tools.  [KeyboardInterrupt]
    and [SystemExit] derive from [BaseException] only, so a clause
    [except Exception] does not catch them. *)
Inductive ExnClass : Type :=
| TimeoutException
| NoSuchElementException
| ElementNotInteractableException
| StaleElementReferenceException
| WebDriverException
| LookupError
| AttributeError
| OSError
| KeyboardInterrupt
| SystemExit.

Definition is_Exception (c : ExnClass) : bool :=
  match c with
  | KeyboardInterrupt | SystemExit => false
  | _ => true
  end.

Record exn : Type := Exn { exn_class : ExnClass; exn_text : string }.

(** [str(e)] *)
Definition str (e : exn) : string := exn_text e.

Inductive result (A : Type) : Type :=
| Ok (a : A)
| Raised (e : exn).
Arguments Ok {A} a.
Arguments Raised {A} e.

(** Handles of selenium objects. *)
Inductive WebDriver : Type := Driver (session : nat).
Inductive WebElement : Type := Element (id : nat).

(** The truth value Python gives an object in [if x:] and [if not x:]. *)
Class Truthy (A : Type) : Type := truthy : A -> bool.

#[export] Instance Truthy_bool : Truthy bool := fun b => b.
#[export] Instance Truthy_string : Truthy string :=
  fun s => match s with EmptyString => false | String _ _ => true end.
#[export] Instance Truthy_list {A : Type} : Truthy (list A) :=
  fun l => match l with [] => false | _ :: _ => true end.
(** [None] is false; a present value has its own truth value. *)
#[export] Instance Truthy_option {A : Type} `{Truthy A} : Truthy (option A) :=
  fun o => match o with None => false | Some a => truthy a end.

(** A selenium object defines no truth value of its own: it is true. *)
#[export] Instance Truthy_WebElement : Truthy WebElement := fun _ => true.

Definition newline : string := String "010"%char EmptyString.
Definition dquote : string := String "034"%char EmptyString.

(** *** White space and [str.strip()]

    A Python string is held as the bytes of its UTF-8 encoding.  The
    white space characters of Python ([str.isspace], the characters
    [str.strip()] removes) are U+0009 to U+000D, U+001C to U+0020,
    U+0085, U+00A0, U+1680, U+2000 to U+200A, U+2028, U+2029, U+202F,
    U+205F and U+3000; they take one, two or three bytes. *)

(** The white space characters of one byte. *)
Definition isspace (c : ascii) : bool :=
  let n := N_of_ascii c in
  (((9 <=? n) && (n <=? 13)) || ((28 <=? n) && (n <=? 32)))%N.

(** Those of two bytes: U+0085 and U+00A0. *)
Definition isspace2 (a b : ascii) : bool :=
  ((N_of_ascii a =? 194) && ((N_of_ascii b =? 133) || (N_of_ascii b =? 160)))%N.

(** Those of three bytes. *)
Definition isspace3 (a b c : ascii) : bool :=
  let x := N_of_ascii a in
  let y := N_of_ascii b in
  let z := N_of_ascii c in
  (((x =? 225) && (y =? 154) && (z =? 128))
   || ((x =? 226) && (y =? 128)
       && (((128 <=? z) && (z <=? 138)) || (z =? 168) || (z =? 169) || (z =? 175)))
   || ((x =? 226) && (y =? 129) && (z =? 159))
   || ((x =? 227) && (y =? 128) && (z =? 128)))%N.

Section Strip.
Variable sp1 : ascii -> bool.
Variable sp2 : ascii -> ascii -> bool.
Variable sp3 : ascii -> ascii -> ascii -> bool.

(** Whether the bytes start with a character that [sp1], [sp2] or [sp3]
    accepts. *)
Definition space_at_start (s : string) : bool :=
  match s with
  | EmptyString => false
  | String a r1 =>
      sp1 a
      || match r1 with
         | EmptyString => false
         | String b r2 =>
             sp2 a b
             || match r2 with
                | EmptyString => false
                | String c _ => sp3 a b c
                end
         end
  end.

(** The bytes without the characters of that kind they start with. *)
Fixpoint strip_start (s : string) : string :=
  match s with
  | EmptyString => EmptyString
  | String a r1 =>
      if sp1 a then strip_start r1
      else match r1 with
           | EmptyString => s
           | String b r2 =>
               if sp2 a b then strip_start r2
               else match r2 with
                    | EmptyString => s
                    | String c r3 => if sp3 a b c then strip_start r3 else s
                    end
           end
  end.

End Strip.

(** The bytes in reverse order. *)
Definition reverse (s : string) : string :=
  string_of_list_ascii (rev (list_ascii_of_string s)).

(** [str.lstrip()] *)
Definition lstrip (s : string) : string :=
  strip_start isspace isspace2 isspace3 s.

(** [str.rstrip()]: white space is taken off the reversed bytes, where
    the bytes of a character come last byte first. *)
Definition rstrip (s : string) : string :=
  reverse (strip_start isspace (fun a b => isspace2 b a)
             (fun a b c => isspace3 c b a) (reverse s)).

(** [str.strip()] *)
Definition strip (s : string) : string := rstrip (lstrip s).

(** [sep.join(items)] *)
Definition join (sep : string) (items : list string) : string :=
  String.concat sep items.

(** ** The browser *)

(** helium's element descriptions; [Label s] is a bare string handed to
    [helium.click], as in [helium.click("Confirm")]. *)
Inductive GUIElement : Type :=
| Text (s : string)
| Button (s : string)
| Link (s : string)
| S (selector : string)
| Label (s : string).

Inductive Key : Type := ENTER.

Definition Png : Type := list ascii.

(** A decoded PIL image. *)
Record Image : Type := { size : N * N; png : Png }.

(** Durations are whole seconds, as everywhere in the two scripts. *)
Definition Seconds : Type := N.

(** One entry of the journal of calls made to the browser. *)
Inductive Call : Type :=
| CSleep (secs : Seconds)
| CGoTo (url : string)
| CExists (g : GUIElement)
| CClick (g : GUIElement)
| CWrite (text : string)
| CPress (k : Key)
| CGetDriver
| CScreenshot (d : WebDriver)
| CCurrentUrl (d : WebDriver)
| CFindElements (selector : string)
| CIsDisplayed (el : WebElement)
| CGetAttribute (el : WebElement) (name : string).

(** The session boundary: what helium, selenium and PIL do for the
    scripts.  [W] is the state of the outside world (the page, the
    browser process); every operation may change it and may raise.
    [br_polls t] is the number of further polls that fit in a wait of
    [t] seconds after the first one, and [br_timeout_text] the text of
    the error such a wait raises when it expires. *)
Record Browser (W : Type) : Type := {
  br_elapse : Seconds -> W -> W;
  br_go_to : string -> W -> result unit * W;
  br_exists : GUIElement -> W -> result bool * W;
  br_click : GUIElement -> W -> result unit * W;
  br_write : string -> W -> result unit * W;
  br_press : Key -> W -> result unit * W;
  br_get_driver : W -> result (option WebDriver) * W;
  br_get_screenshot_as_png : WebDriver -> W -> result Png * W;
  br_Image_open : Png -> result Image;
  br_current_url : WebDriver -> W -> result string * W;
  br_find_elements : string -> W -> result (list WebElement) * W;
  br_is_displayed : WebElement -> W -> result bool * W;
  br_get_attribute : WebElement -> string -> W -> result (option string) * W;
  br_polls : Seconds -> nat;
  br_timeout_text : string
}.
Arguments br_elapse {W} _ _ _.
Arguments br_go_to {W} _ _ _.
Arguments br_exists {W} _ _ _.
Arguments br_click {W} _ _ _.
Arguments br_write {W} _ _ _.
Arguments br_press {W} _ _ _.
Arguments br_get_driver {W} _ _.
Arguments br_get_screenshot_as_png {W} _ _ _.
Arguments br_Image_open {W} _ _.
Arguments br_current_url {W} _ _ _.
Arguments br_find_elements {W} _ _ _.
Arguments br_is_displayed {W} _ _ _.
Arguments br_get_attribute {W} _ _ _ _.
Arguments br_polls {W} _ _.
Arguments br_timeout_text {W} _.

(** smolagents' [ActionStep], as far as the callback touches it. *)
Record ActionStep : Type := {
  observations : option string;
  observations_images : option (list Image)
}.

(** The state a tool runs in: the outside world, the step log the
    callback mutates in place, and the journal of browser calls. *)
Record Machine (W : Type) : Type := {
  page : W;
  step_log : ActionStep;
  calls : list Call
}.
Arguments page {W} _.
Arguments step_log {W} _.
Arguments calls {W} _.

(** What the planner reads off a returned message: every tool reports
    a failure as a message that starts with "Error ". *)
Record ActionOutcome : Type := { success : bool; message : string }.

Definition outcome_of (msg : string) : ActionOutcome :=
  {| success := negb (String.prefix "Error " msg); message := msg |}.

(** [needle in hay] *)
Definition contains (needle hay : string) : Prop :=
  exists before after, hay = before ++ needle ++ after.

(** ** The monad of tool code *)

Section Run.
Context {W : Type} (B : Browser W).

Definition M (A : Type) : Type := Machine W -> result A * Machine W.

Definition ret {A : Type} (a : A) : M A := fun m => (Ok a, m).

Definition raise {A : Type} (e : exn) : M A := fun m => (Raised e, m).

Definition bind {A C : Type} (c : M A) (k : A -> M C) : M C :=
  fun m =>
    match c m with
    | (Ok a, m') => k a m'
    | (Raised e, m') => (Raised e, m')
    end.

(** [try: body  except Exception as e: handler] *)
Definition try_except {A : Type} (body : M A) (handler : exn -> M A) : M A :=
  fun m =>
    match body m with
    | (Ok a, m') => (Ok a, m')
    | (Raised e, m') =>
        if is_Exception (exn_class e) then handler e m' else (Raised e, m')
    end.

(** A call across the session boundary, entered in the journal. *)
Definition invoke {A : Type} (c : Call) (op : W -> result A * W) : M A :=
  fun m =>
    let (r, w) := op (page m) in
    (r, {| page := w; step_log := step_log m; calls := calls m ++ [c] |}).

(** [time.sleep(secs)] *)
Definition sleep (secs : Seconds) : M unit :=
  fun m =>
    (Ok tt, {| page := br_elapse B secs (page m);
               step_log := step_log m;
               calls := calls m ++ [CSleep secs] |}).

Definition get_step_log : M ActionStep := fun m => (Ok (step_log m), m).

Definition set_step_log (s : ActionStep) : M unit :=
  fun m => (Ok tt, {| page := page m; step_log := s; calls := calls m |}).

End Run.

Declare Scope tool_scope.
Delimit Scope tool_scope with tool.
Notation "x <- c ;; k" := (bind c (fun x => k))
  (at level 61, c at next level, right associativity) : tool_scope.
Notation "c ;; k" := (bind c (fun _ => k))
  (at level 61, right associativity) : tool_scope.
Open Scope tool_scope.

(** ** helium and selenium calls *)

Section Session.
Context {W : Type} (B : Browser W).
Local Abbreviation M := (@M W).

(** [helium.go_to(url)] *)
Definition go_to (url : string) : M unit :=
  invoke (CGoTo url) (br_go_to B url).

(** [g.exists()] *)
Definition exists_ (g : GUIElement) : M bool :=
  invoke (CExists g) (br_exists B g).

(** [helium.click(g)] *)
Definition click (g : GUIElement) : M unit :=
  invoke (CClick g) (br_click B g).

(** [helium.write(text)] *)
Definition write (text : string) : M unit :=
  invoke (CWrite text) (br_write B text).

(** [helium.press(k)] *)
Definition press (k : Key) : M unit :=
  invoke (CPress k) (br_press B k).

(** [helium.get_driver()] *)
Definition get_driver : M (option WebDriver) :=
  invoke CGetDriver (br_get_driver B).

(** [driver.get_screenshot_as_png()] *)
Definition get_screenshot_as_png (d : WebDriver) : M Png :=
  invoke (CScreenshot d) (br_get_screenshot_as_png B d).

(** [Image.open(BytesIO(png_bytes))] *)
Definition Image_open (bytes : Png) : M Image :=
  fun m => (br_Image_open B bytes, m).

(** What Python raises for [None.current_url]. *)
Definition none_has_no_current_url : exn :=
  Exn AttributeError "'NoneType' object has no attribute 'current_url'".

(** [driver.current_url]; on [None] the attribute access itself
    raises. *)
Definition current_url (driver : option WebDriver) : M string :=
  match driver with
  | Some d => invoke (CCurrentUrl d) (br_current_url B d)
  | None => raise none_has_no_current_url
  end.

(** [driver.find_elements(By.CSS_SELECTOR, selector)] *)
Definition find_elements (selector : string) : M (list WebElement) :=
  invoke (CFindElements selector) (br_find_elements B selector).

(** [element.is_displayed()] *)
Definition is_displayed (el : WebElement) : M bool :=
  invoke (CIsDisplayed el) (br_is_displayed B el).

(** [element.get_attribute(name)] *)
Definition get_attribute (el : WebElement) (name : string) : M (option string) :=
  invoke (CGetAttribute el name) (br_get_attribute B el name).

(** What Python raises for [helium.driver]: the helium module has no
    attribute of that name (its driver is [helium.get_driver()]). *)
Definition helium_has_no_driver : exn :=
  Exn AttributeError "module 'helium' has no attribute 'driver'".

(** [helium.driver.execute_script(script, element)]: the access to
    [helium.driver] raises before any script is handed to a driver. *)
Definition execute_script (script : string) (el : WebElement) : M unit :=
  raise helium_has_no_driver.

(** [EC.presence_of_all_elements_located((By.CSS_SELECTOR, selector))] *)
Definition presence_of_all_elements_located (selector : string)
  : M (list WebElement) :=
  find_elements selector.

(** [EC.presence_of_element_located((By.CSS_SELECTOR, selector))]:
    the first match, if any.  (selenium's [find_element] raises when
    nothing matches and the wait polls again; here the probe answers
    [None], which the wait takes as no match.) *)
Definition presence_of_element_located (selector : string)
  : M (option WebElement) :=
  elements <- find_elements selector ;;
  ret (hd_error elements).

(** The error of a wait that has expired. *)
Definition timeout_error : exn := Exn TimeoutException (br_timeout_text B).

(** Modelled from the spec: the Element Locator of section 4.1, which
    the scripts reach through [helium.wait_until] and selenium's
    [WebDriverWait(...).until]; neither library is under src/.  The
    locator polls the probe until it reports a match or the timeout
    elapses, and fails with the locator's timeout error when the
    timeout expires with no match.  It always polls once. *)
Fixpoint poll {A : Type} `{Truthy A} (probe : M A) (more : nat) : M A :=
  value <- probe ;;
  if truthy value then ret value
  else match more with
       | O => raise timeout_error
       | Datatypes.S more' => poll probe more'
       end.

(** [WebDriverWait(driver, timeout).until(probe)] *)
Definition until {A : Type} `{Truthy A} (probe : M A) (timeout : Seconds) : M A :=
  poll probe (br_polls B timeout).

(** [helium.wait_until(condition, timeout_secs=timeout)] *)
Definition wait_until (condition : M bool) (timeout_secs : Seconds) : M bool :=
  until condition timeout_secs.

(** [for x in xs: body(x)] *)
Fixpoint for_each {A : Type} (xs : list A) (body : A -> M unit) : M unit :=
  match xs with
  | [] => ret tt
  | x :: rest => body x ;; for_each rest body
  end.

End Session.

(** smolagents' [CodeAgent(...)] as the scripts configure it: the names
    of the registered tools, the model id, the step callbacks and the
    step budget. *)
Record CodeAgent (W : Type) : Type := {
  tools : list string;
  model : string;
  additional_authorized_imports : list string;
  step_callbacks : list (M (W:=W) unit);
  max_steps : nat;
  verbosity_level : nat
}.
Arguments tools {W} _.
Arguments model {W} _.
Arguments additional_authorized_imports {W} _.
Arguments step_callbacks {W} _.
Arguments max_steps {W} _.
Arguments verbosity_level {W} _.

(** ** agent.py *)

Module AgentPy.
Section Tools.
Context {W : Type} (B : Browser W).
Local Abbreviation M := (@M W).

(** The step callback.  [print] writes to the console only and is left
    out; [image.copy()] is the image itself.  A driver object is always
    true, so [if driver:] asks whether there is one; [+=] reads the text
    it appends to. *)
Definition save_screenshot : M unit :=
  sleep B 1%N ;;
  driver <- get_driver B ;;
  match driver with
  | Some d =>
      png_bytes <- get_screenshot_as_png B d ;;
      image <- Image_open B png_bytes ;;
      log <- get_step_log ;;
      set_step_log {| observations := observations log;
                      observations_images := Some [image] |}
  | None => ret tt
  end ;;
  url <- current_url B driver ;;
  let url_info := "Current URL: " ++ url in
  log <- get_step_log ;;
  if truthy (observations log) then
    match observations log with
    | Some text =>
        set_step_log {| observations := Some (text ++ newline ++ url_info);
                        observations_images := observations_images log |}
    | None => ret tt
    end
  else
    set_step_log {| observations := Some url_info;
                    observations_images := observations_images log |}.

Definition navigate_to_zepto_body : M string :=
  go_to B "https://www.zeptonow.com/" ;;
  wait_until B (exists_ B (Text "Search for")) 10%N ;;
  ret "Successfully navigated to Zepto.".

Definition navigate_to_zepto : M string :=
  try_except navigate_to_zepto_body
    (fun e => ret ("Error navigating to Zepto: " ++ str e)).

Definition handle_location_popup_body : M string :=
  sleep B 2%N ;;
  detect <- exists_ B (Button "Detect my location") ;;
  if detect then
    click B (Button "Detect my location") ;;
    ret "Clicked 'Detect my location'."
  else
    allow <- exists_ B (Button "Allow") ;;
    if allow then
      click B (Button "Allow") ;;
      ret "Clicked 'Allow' on location popup."
    else
      pin <- exists_ B (Text "Enter your Pin Code") ;;
      if pin then
        write B "400001" ;;
        click B (Label "Confirm") ;;
        ret "Entered PIN and confirmed location."
      else
        ret "No location popup detected.".

Definition handle_location_popup : M string :=
  try_except handle_location_popup_body
    (fun e => ret ("Error handling location popup: " ++ str e)).

Definition search_product_body (product_name : string) : M string :=
  click B (Link "Search for products") ;;
  write B product_name ;;
  press B ENTER ;;
  wait_until B (exists_ B (Text product_name)) 10%N ;;
  ret ("Successfully searched for '" ++ product_name ++ "'.").

Definition search_product (product_name : string) : M string :=
  try_except (search_product_body product_name)
    (fun e => ret ("Error searching for '" ++ product_name ++ "': " ++ str e)).

Definition select_first_product_body : M string :=
  wait_until B (exists_ B (S ".cursor-pointer")) 10%N ;;
  click B (S ".cursor-pointer") ;;
  ret "Successfully selected the first product.".

Definition select_first_product : M string :=
  try_except select_first_product_body
    (fun e => ret ("Error selecting the first product: " ++ str e)).

Definition add_to_cart_body : M string :=
  wait_until B (exists_ B (Button "Add to Cart")) 10%N ;;
  click B (Button "Add to Cart") ;;
  ret "Successfully added the product to the cart.".

Definition add_to_cart : M string :=
  try_except add_to_cart_body
    (fun e => ret ("Error adding product to the cart: " ++ str e)).

Definition modal_selectors : list string :=
  [ "button[class*='close']";
    "[class*='modal']";
    ".modal-close";
    ".close-modal" ].

Definition close_popups_body : M string :=
  for_each modal_selectors (fun selector =>
    elements <- until B (presence_of_all_elements_located B selector) 1%N ;;
    for_each elements (fun element =>
      displayed <- is_displayed B element ;;
      if displayed
      then execute_script "arguments[0].click();" element
      else ret tt)) ;;
  ret "Popups closed.".

Definition close_popups : M string :=
  try_except close_popups_body
    (fun e => ret ("Error closing popups: " ++ str e)).

Definition agent : CodeAgent W := {|
  tools := [ "navigate_to_zepto"; "handle_location_popup"; "search_product";
             "select_first_product"; "add_to_cart"; "close_popups" ];
  model := "gpt-4o";
  additional_authorized_imports := [ "helium" ];
  step_callbacks := [ save_screenshot ];
  max_steps := 20;
  verbosity_level := 2
|}.

(** A call of one of the registered tools with its arguments. *)
Inductive ToolCall : Type :=
| call_navigate_to_zepto
| call_handle_location_popup
| call_search_product (product_name : string)
| call_select_first_product
| call_add_to_cart
| call_close_popups.

Definition dispatch (c : ToolCall) : M string :=
  match c with
  | call_navigate_to_zepto => navigate_to_zepto
  | call_handle_location_popup => handle_location_popup
  | call_search_product product_name => search_product product_name
  | call_select_first_product => select_first_product
  | call_add_to_cart => add_to_cart
  | call_close_popups => close_popups
  end.

(** The [try] block of each tool and the text its [except] clause puts
    in front of [str(e)]. *)
Definition try_block (c : ToolCall) : M string :=
  match c with
  | call_navigate_to_zepto => navigate_to_zepto_body
  | call_handle_location_popup => handle_location_popup_body
  | call_search_product product_name => search_product_body product_name
  | call_select_first_product => select_first_product_body
  | call_add_to_cart => add_to_cart_body
  | call_close_popups => close_popups_body
  end.

Definition error_prefix (c : ToolCall) : string :=
  match c with
  | call_navigate_to_zepto => "Error navigating to Zepto: "
  | call_handle_location_popup => "Error handling location popup: "
  | call_search_product product_name =>
      "Error searching for '" ++ product_name ++ "': "
  | call_select_first_product => "Error selecting the first product: "
  | call_add_to_cart => "Error adding product to the cart: "
  | call_close_popups => "Error closing popups: "
  end.

End Tools.
End AgentPy.

(** ** zepto.py *)

Module ZeptoPy.
Section Tools.
Context {W : Type} (B : Browser W).
Local Abbreviation M := (@M W).

(** The step callback of this script; [print] is left out as above. *)
Definition save_screenshot : M unit :=
  sleep B 1%N ;;
  driver <- get_driver B ;;
  match driver with
  | Some d =>
      png_bytes <- get_screenshot_as_png B d ;;
      image <- Image_open B png_bytes ;;
      log <- get_step_log ;;
      set_step_log {| observations := observations log;
                      observations_images := Some [image] |}
  | None => ret tt
  end ;;
  url <- current_url B driver ;;
  let url_info := "Current URL: " ++ url in
  log <- get_step_log ;;
  if truthy (observations log) then
    match observations log with
    | Some text =>
        set_step_log {| observations := Some (text ++ newline ++ url_info);
                        observations_images := observations_images log |}
    | None => ret tt
    end
  else
    set_step_log {| observations := Some url_info;
                    observations_images := observations_images log |}.

Definition navigate_to_zepto_body : M string :=
  go_to B "https://www.zeptonow.com/" ;;
  wait_until B (exists_ B (Text "Search for")) 10%N ;;
  ret "Successfully navigated to Zepto.".

Definition navigate_to_zepto : M string :=
  try_except navigate_to_zepto_body
    (fun e => ret ("Error navigating to Zepto: " ++ str e)).

(** [div[id="CATEGORY_GRID_V3-element"] img[alt]] *)
Definition category_selector : string :=
  "div[id=" ++ dquote ++ "CATEGORY_GRID_V3-element" ++ dquote ++ "] img[alt]".

(** The loop over [category_imgs], with [category_names] as the list
    it appends to. *)
Fixpoint collect_alt_texts (category_imgs : list WebElement)
    (category_names : list string) : M (list string) :=
  match category_imgs with
  | [] => ret category_names
  | img :: rest =>
      alt_text <- get_attribute B img "alt" ;;
      match alt_text with
      | Some text =>
          if truthy text
          then collect_alt_texts rest (category_names ++ [strip text])
          else collect_alt_texts rest category_names
      | None => collect_alt_texts rest category_names
      end
  end.

Definition scrape_categories_body : M string :=
  until B (presence_of_element_located B category_selector) 3%N ;;
  category_imgs <- find_elements B category_selector ;;
  if negb (truthy category_imgs) then
    ret "No category images found. Possibly incorrect selector."
  else
    category_names <- collect_alt_texts category_imgs [] ;;
    if truthy category_names then
      ret ("Categories found: " ++ join ", " category_names)
    else
      ret "No alt text found in category images.".

Definition scrape_categories : M string :=
  try_except scrape_categories_body
    (fun e => ret ("Error scraping categories: " ++ str e)).

Definition agent : CodeAgent W := {|
  tools := [ "navigate_to_zepto"; "scrape_categories" ];
  model := "gpt-4o";
  additional_authorized_imports := [ "helium" ];
  step_callbacks := [ save_screenshot ];
  max_steps := 10;
  verbosity_level := 2
|}.

Inductive ToolCall : Type :=
| call_navigate_to_zepto
| call_scrape_categories.

Definition dispatch (c : ToolCall) : M string :=
  match c with
  | call_navigate_to_zepto => navigate_to_zepto
  | call_scrape_categories => scrape_categories
  end.

Definition try_block (c : ToolCall) : M string :=
  match c with
  | call_navigate_to_zepto => navigate_to_zepto_body
  | call_scrape_categories => scrape_categories_body
  end.

Definition error_prefix (c : ToolCall) : string :=
  match c with
  | call_navigate_to_zepto => "Error navigating to Zepto: "
  | call_scrape_categories => "Error scraping categories: "
  end.

End Tools.
End ZeptoPy.

(** ** The control loop *)

Section ControlLoop.
Context {W : Type} {ToolCall : Type}.
Local Abbreviation M := (@M W).

(** One recorded iteration (section 3 of the design). *)
Record Step : Type := {
  chosen : ToolCall;
  outcome : ActionOutcome;
  observation : ActionStep;
  index : nat
}.

Definition History : Type := list Step.

(** What the Decision Function answers: the next primitive with its
    arguments, or the final answer. *)
Inductive Decision : Type :=
| Invoke (c : ToolCall)
| FinalAnswer (answer : string).

(** How a run ends: the planner's answer, the step budget exhausted
    (with the most recent outcome message), or an error that escaped a
    step. *)
Inductive RunResult : Type :=
| Done (answer : string)
| Aborted (last_message : string)
| Failed (e : exn).

Variable dispatch : ToolCall -> M string.
Variable chooseNextAction : History -> Decision.

Definition last_message (history : History) : string :=
  match rev history with
  | [] => EmptyString
  | s :: _ => message (outcome s)
  end.

(** The callbacks run in order on the step log. *)
Definition run_callbacks (callbacks : list (M unit)) : M unit :=
  for_each callbacks (fun callback => callback).

(** Modelled from the spec: the Step Harness and Control Loop of
    sections 4.4 and 4.5, which are smolagents' [CodeAgent.run] and not
    under src/.  Each turn asks the Decision Function; on a primitive it
    executes it, puts the outcome message in a fresh step log, runs
    Observation Capture, appends the step to the history and goes on
    with one step less in the budget; it stops on a final answer, on an
    exhausted budget, or on an error escaping the step. *)
Fixpoint control_loop (callbacks : list (M unit)) (budget : nat)
    (history : History) (m : Machine W) : (RunResult * History) * Machine W :=
  match budget with
  | O => ((Aborted (last_message history), history), m)
  | Datatypes.S budget' =>
      match chooseNextAction history with
      | FinalAnswer answer => ((Done answer, history), m)
      | Invoke c =>
          match (msg <- dispatch c ;;
                 set_step_log {| observations := Some msg;
                                 observations_images := None |} ;;
                 run_callbacks callbacks ;;
                 log <- get_step_log ;;
                 ret {| chosen := c; outcome := outcome_of msg;
                        observation := log;
                        index := Datatypes.S (length history) |}) m with
          | (Ok step, m') =>
              control_loop callbacks budget' (history ++ [step])%list m'
          | (Raised e, m') => ((Failed e, history), m')
          end
      end
  end.

(** Modelled from the spec: a run, [agent.run(instructions)], is the
    control loop of section 4.5 started on an empty history with the
    step budget and the callbacks the script gave the agent. *)
Definition run (agent : CodeAgent W) (m : Machine W)
  : (RunResult * History) * Machine W :=
  control_loop (step_callbacks agent) (max_steps agent) [] m.

End ControlLoop.

(** ** The action library as a whole *)

(** A primitive of the library: a tool call of either script. *)
Definition Primitive : Type := (AgentPy.ToolCall + ZeptoPy.ToolCall)%type.

Section Library.
Context {W : Type} (B : Browser W).

Definition primitive_run (p : Primitive) : M (W:=W) string :=
  match p with
  | inl c => AgentPy.dispatch B c
  | inr c => ZeptoPy.dispatch B c
  end.

Definition primitive_try (p : Primitive) : M (W:=W) string :=
  match p with
  | inl c => AgentPy.try_block B c
  | inr c => ZeptoPy.try_block B c
  end.

Definition primitive_prefix (p : Primitive) : string :=
  match p with
  | inl c => AgentPy.error_prefix c
  | inr c => ZeptoPy.error_prefix c
  end.

End Library.

(** What [scrape_categories] is meant to list: the alt texts that are
    not empty, stripped, in the order of the images on the page. *)
Definition stripped_alt_texts (alts : list (option string)) : list string :=
  flat_map (fun alt =>
              match alt with
              | Some (String c text) => [strip (String c text)]
              | _ => []
              end) alts.

(** ** Concrete pages *)

Definition GUIElement_eqb (a b : GUIElement) : bool :=
  match a, b with
  | Text s, Text t => String.eqb s t
  | Button s, Button t => String.eqb s t
  | Link s, Link t => String.eqb s t
  | S s, S t => String.eqb s t
  | Label s, Label t => String.eqb s t
  | _, _ => false
  end.

(** A page that does not change: which helium elements exist, what each
    CSS selector matches, and the attributes of the matched elements. *)
Record Dom : Type := {
  dom_url : string;
  dom_driver : option WebDriver;
  dom_shown : list GUIElement;
  dom_select : string -> list WebElement;
  dom_alt : WebElement -> option string;
  dom_displayed : WebElement -> bool
}.

Definition shown (d : Dom) (g : GUIElement) : bool :=
  existsb (GUIElement_eqb g) (dom_shown d).

(** A browser on such a page.  Clicking what is not there raises
    helium's [LookupError]; the locator polls twice a second. *)
Definition static_browser (d : Dom) : Browser unit := {|
  br_elapse := fun _ w => w;
  br_go_to := fun _ w => (Ok tt, w);
  br_exists := fun g w => (Ok (shown d g), w);
  br_click := fun g w =>
    (if shown d g then Ok tt else Raised (Exn LookupError "no such element"), w);
  br_write := fun _ w => (Ok tt, w);
  br_press := fun _ w => (Ok tt, w);
  br_get_driver := fun w => (Ok (dom_driver d), w);
  br_get_screenshot_as_png := fun _ w => (Ok ["P"; "N"; "G"]%char, w);
  br_Image_open := fun bytes => Ok {| size := (1000, 1300)%N; png := bytes |};
  br_current_url := fun _ w => (Ok (dom_url d), w);
  br_find_elements := fun selector w => (Ok (dom_select d selector), w);
  br_is_displayed := fun el w => (Ok (dom_displayed d el), w);
  br_get_attribute := fun el name w =>
    (if String.eqb name "alt" then Ok (dom_alt d el) else Ok None, w);
  br_polls := fun t => N.to_nat (2 * t);
  br_timeout_text := "Message: "
|}.

(** A browser whose session has died: every driver call raises. *)
Definition session_lost : exn := Exn WebDriverException "invalid session id".

Definition crashed_browser : Browser unit := {|
  br_elapse := fun _ w => w;
  br_go_to := fun _ w => (Raised session_lost, w);
  br_exists := fun _ w => (Raised session_lost, w);
  br_click := fun _ w => (Raised session_lost, w);
  br_write := fun _ w => (Raised session_lost, w);
  br_press := fun _ w => (Raised session_lost, w);
  br_get_driver := fun w => (Ok (Some (Driver 0)), w);
  br_get_screenshot_as_png := fun _ w => (Raised session_lost, w);
  br_Image_open := fun _ => Raised (Exn OSError "cannot identify image file");
  br_current_url := fun _ w => (Raised session_lost, w);
  br_find_elements := fun _ w => (Raised session_lost, w);
  br_is_displayed := fun _ w => (Raised session_lost, w);
  br_get_attribute := fun _ _ w => (Raised session_lost, w);
  br_polls := fun t => N.to_nat (2 * t);
  br_timeout_text := "Message: "
|}.

(** The Zepto home page without any popup, overlay or category image. *)
Definition home_page : Dom := {|
  dom_url := "https://www.zeptonow.com/";
  dom_driver := Some (Driver 0);
  dom_shown := [ Text "Search for"; Link "Search for products" ];
  dom_select := fun _ => [];
  dom_alt := fun _ => None;
  dom_displayed := fun _ => false
|}.

(** The same page after helium's driver has been torn down. *)
Definition torn_down_page : Dom := {|
  dom_url := "https://www.zeptonow.com/";
  dom_driver := None;
  dom_shown := [];
  dom_select := fun _ => [];
  dom_alt := fun _ => None;
  dom_displayed := fun _ => false
|}.

Definition page_showing (gs : list GUIElement) : Dom := {|
  dom_url := "https://www.zeptonow.com/";
  dom_driver := Some (Driver 0);
  dom_shown := gs;
  dom_select := fun _ => [];
  dom_alt := fun _ => None;
  dom_displayed := fun _ => false
|}.

(** A home page with three category images, the second with an empty
    alt text. *)
Definition category_page (alts : WebElement -> option string) : Dom := {|
  dom_url := "https://www.zeptonow.com/";
  dom_driver := Some (Driver 0);
  dom_shown := [ Text "Search for" ];
  dom_select := fun selector =>
    if String.eqb selector ZeptoPy.category_selector
    then [ Element 1; Element 2; Element 3 ] else [];
  dom_alt := alts;
  dom_displayed := fun _ => true
|}.

Definition grocery_alts (el : WebElement) : option string :=
  match el with
  | Element 1 => Some " Fruits & Vegetables"
  | Element 2 => Some EmptyString
  | Element 3 => Some "Dairy, Bread & Eggs "
  | _ => None
  end.

(** A page whose category image is gone after the first lookup: the
    state counts the lookups made so far. *)
Definition vanishing_browser : Browser nat := {|
  br_elapse := fun _ w => w;
  br_go_to := fun _ w => (Ok tt, w);
  br_exists := fun _ w => (Ok false, w);
  br_click := fun _ w => (Raised (Exn LookupError "no such element"), w);
  br_write := fun _ w => (Ok tt, w);
  br_press := fun _ w => (Ok tt, w);
  br_get_driver := fun w => (Ok (Some (Driver 0)), w);
  br_get_screenshot_as_png := fun _ w => (Ok ["P"; "N"; "G"]%char, w);
  br_Image_open := fun bytes => Ok {| size := (1000, 1300)%N; png := bytes |};
  br_current_url := fun _ w => (Ok "https://www.zeptonow.com/", w);
  br_find_elements := fun _ w =>
    (Ok (match w with O => [Element 1] | _ => [] end), Datatypes.S w);
  br_is_displayed := fun _ w => (Ok true, w);
  br_get_attribute := fun _ _ w => (Ok None, w);
  br_polls := fun t => N.to_nat (2 * t);
  br_timeout_text := "Message: "
|}.

Definition first_lookup : Machine nat :=
  {| page := O;
     step_log := {| observations := None; observations_images := None |};
     calls := [] |}.

Definition fresh_log : ActionStep :=
  {| observations := None; observations_images := None |}.

Definition start : Machine unit :=
  {| page := tt; step_log := fresh_log; calls := [] |}.

Definition start_with (text : string) : Machine unit :=
  {| page := tt;
     step_log := {| observations := Some text; observations_images := None |};
     calls := [] |}.

(** A planner that never finishes: it asks for the first tool again. *)
Definition stubborn_agent_planner
  : History (ToolCall:=AgentPy.ToolCall) -> Decision (ToolCall:=AgentPy.ToolCall) :=
  fun _ => Invoke AgentPy.call_navigate_to_zepto.

Definition stubborn_zepto_planner
  : History (ToolCall:=ZeptoPy.ToolCall) -> Decision (ToolCall:=ZeptoPy.ToolCall) :=
  fun _ => Invoke ZeptoPy.call_navigate_to_zepto.

(** ** Journals and further pages *)

(** The calls of [close_popups] on selectors whose matches are all
    hidden, on a page where the selector [s] matches the elements
    [matches s]: for each selector one lookup, then the visibility test
    of each match. *)
Definition quiet_calls (matches : string -> list WebElement)
    (selectors : list string) : list Call :=
  flat_map (fun selector =>
              CFindElements selector :: map CIsDisplayed (matches selector))
    selectors.

(** Whether a text starts, or ends, with a white space character. *)
Definition starts_with_space (s : string) : bool :=
  space_at_start isspace isspace2 isspace3 s.

Definition ends_with_space (s : string) : bool :=
  space_at_start isspace (fun a b => isspace2 b a)
    (fun a b c => isspace3 c b a) (reverse s).

(** The user presses Ctrl-C while the page loads. *)
Definition interrupt : exn := Exn KeyboardInterrupt EmptyString.

Definition interrupted_browser : Browser unit := {|
  br_elapse := fun _ w => w;
  br_go_to := fun _ w => (Raised interrupt, w);
  br_exists := fun _ w => (Ok false, w);
  br_click := fun _ w => (Ok tt, w);
  br_write := fun _ w => (Ok tt, w);
  br_press := fun _ w => (Ok tt, w);
  br_get_driver := fun w => (Ok (Some (Driver 0)), w);
  br_get_screenshot_as_png := fun _ w => (Ok ["P"; "N"; "G"]%char, w);
  br_Image_open := fun bytes => Ok {| size := (1000, 1300)%N; png := bytes |};
  br_current_url := fun _ w => (Ok "https://www.zeptonow.com/", w);
  br_find_elements := fun _ w => (Ok [], w);
  br_is_displayed := fun _ w => (Ok false, w);
  br_get_attribute := fun _ _ w => (Ok None, w);
  br_polls := fun t => N.to_nat (2 * t);
  br_timeout_text := "Message: "
|}.

(** Every control exists, but something covers the page: no click gets
    through. *)
Definition covered : exn :=
  Exn ElementNotInteractableException "element not interactable".

Definition covered_browser : Browser unit := {|
  br_elapse := fun _ w => w;
  br_go_to := fun _ w => (Ok tt, w);
  br_exists := fun _ w => (Ok true, w);
  br_click := fun _ w => (Raised covered, w);
  br_write := fun _ w => (Ok tt, w);
  br_press := fun _ w => (Ok tt, w);
  br_get_driver := fun w => (Ok (Some (Driver 0)), w);
  br_get_screenshot_as_png := fun _ w => (Ok ["P"; "N"; "G"]%char, w);
  br_Image_open := fun bytes => Ok {| size := (1000, 1300)%N; png := bytes |};
  br_current_url := fun _ w => (Ok "https://www.zeptonow.com/", w);
  br_find_elements := fun _ w => (Ok [], w);
  br_is_displayed := fun _ w => (Ok false, w);
  br_get_attribute := fun _ _ w => (Ok None, w);
  br_polls := fun t => N.to_nat (2 * t);
  br_timeout_text := "Message: "
|}.

(** The session dies between the screenshot and the reading of the
    address. *)
Definition dying_browser : Browser unit := {|
  br_elapse := fun _ w => w;
  br_go_to := fun _ w => (Ok tt, w);
  br_exists := fun _ w => (Ok false, w);
  br_click := fun _ w => (Ok tt, w);
  br_write := fun _ w => (Ok tt, w);
  br_press := fun _ w => (Ok tt, w);
  br_get_driver := fun w => (Ok (Some (Driver 0)), w);
  br_get_screenshot_as_png := fun _ w => (Ok ["P"; "N"; "G"]%char, w);
  br_Image_open := fun bytes => Ok {| size := (1000, 1300)%N; png := bytes |};
  br_current_url := fun _ w => (Raised session_lost, w);
  br_find_elements := fun _ w => (Ok [], w);
  br_is_displayed := fun _ w => (Ok false, w);
  br_get_attribute := fun _ _ w => (Ok None, w);
  br_polls := fun t => N.to_nat (2 * t);
  br_timeout_text := "Message: "
|}.

(** A page with overlays for every selector; element 2 matches two of
    them and element 1 is hidden. *)
Definition overlay_matches (selector : string) : list WebElement :=
  if String.eqb selector "button[class*='close']" then [Element 1; Element 2]
  else if String.eqb selector "[class*='modal']" then [Element 3]
  else if String.eqb selector ".modal-close" then [Element 2]
  else if String.eqb selector ".close-modal" then [Element 4]
  else [].

Definition overlay_displayed (el : WebElement) : bool :=
  match el with
  | Element 1 => false
  | _ => true
  end.

Definition overlay_page : Dom := {|
  dom_url := "https://www.zeptonow.com/";
  dom_driver := Some (Driver 0);
  dom_shown := [ Text "Search for" ];
  dom_select := overlay_matches;
  dom_alt := fun _ => None;
  dom_displayed := overlay_displayed
|}.

(** The same overlays, all of them hidden. *)
Definition hidden_overlay_page : Dom := {|
  dom_url := "https://www.zeptonow.com/";
  dom_driver := Some (Driver 0);
  dom_shown := [ Text "Search for" ];
  dom_select := overlay_matches;
  dom_alt := fun _ => None;
  dom_displayed := fun _ => false
|}.

(** A page with one hidden close button and nothing else that the
    selectors match. *)
Definition close_button_matches (selector : string) : list WebElement :=
  if String.eqb selector "button[class*='close']" then [Element 7] else [].

Definition hidden_button_page : Dom := {|
  dom_url := "https://www.zeptonow.com/";
  dom_driver := Some (Driver 0);
  dom_shown := [ Text "Search for" ];
  dom_select := close_button_matches;
  dom_alt := fun _ => None;
  dom_displayed := fun _ => false
|}.

(** * Results *)

(** ** Strings *)

Lemma append_assoc (a b c : string) : (a ++ b) ++ c = a ++ (b ++ c).
Proof. induction a as [| ch a IH]; simpl; [| rewrite IH]; reflexivity. Qed.

(** ** Running the monad *)

Section MonadFacts.
Context {W : Type}.
Local Abbreviation M := (@M W).

Lemma bind_ok {A C : Type} (c : M A) (k : A -> M C) m a m' :
  c m = (Ok a, m') -> bind c k m = k a m'.
Proof. unfold bind. intros ->. reflexivity. Qed.

Lemma bind_raised {A C : Type} (c : M A) (k : A -> M C) m e m' :
  c m = (Raised e, m') -> bind c k m = (Raised e, m').
Proof. unfold bind. intros ->. reflexivity. Qed.

Lemma try_except_ok {A : Type} (body : M A) handler m a m' :
  body m = (Ok a, m') -> try_except body handler m = (Ok a, m').
Proof. unfold try_except. intros ->. reflexivity. Qed.

Lemma try_except_caught {A : Type} (body : M A) handler m e m' :
  body m = (Raised e, m') ->
  is_Exception (exn_class e) = true ->
  try_except body handler m = handler e m'.
Proof. unfold try_except. intros -> ->. reflexivity. Qed.

Lemma try_except_escapes {A : Type} (body : M A) handler m e m' :
  body m = (Raised e, m') ->
  is_Exception (exn_class e) = false ->
  try_except body handler m = (Raised e, m').
Proof. unfold try_except. intros -> ->. reflexivity. Qed.

(** Whatever leaves a [try] whose handler only returns is not of class
    [Exception]. *)
Lemma try_except_filters {A : Type} (body : M A) (text : exn -> A) m e :
  fst (try_except body (fun e => ret (text e)) m) = Raised e ->
  is_Exception (exn_class e) = false.
Proof.
  unfold try_except.
  destruct (body m) as [[a | e0] m0]; simpl; [discriminate |].
  destruct (is_Exception (exn_class e0)) eqn:Hclass; simpl; [discriminate |].
  intros [= <-]. exact Hclass.
Qed.

End MonadFacts.

(** Rewriting a sequence along the operations whose results are known. *)
Ltac run_ok H := erewrite bind_ok by exact H; cbv beta iota.

(** ** The locator *)

Section LocatorFacts.
Context {W : Type} (B : Browser W).

Lemma poll_unfold {A : Type} `{Truthy A} (probe : M (W:=W) A) (more : nat) :
  poll B probe more
  = (value <- probe ;;
     if truthy value then ret value
     else match more with
          | O => raise (timeout_error B)
          | Datatypes.S more' => poll B probe more'
          end).
Proof. destruct more; reflexivity. Qed.

(** A probe that never reports a match makes the wait expire. *)
Lemma poll_never {A : Type} `{Truthy A} (probe : M (W:=W) A) :
  (forall m, exists v m', probe m = (Ok v, m') /\ truthy v = false) ->
  forall more m, exists m', poll B probe more m = (Raised (timeout_error B), m').
Proof.
  intros Hprobe more.
  induction more as [| more IH]; intros m;
    destruct (Hprobe m) as (v & m1 & Hrun & Hfalse);
    rewrite poll_unfold; run_ok Hrun; rewrite Hfalse.
  - exists m1. reflexivity.
  - apply IH.
Qed.

(** A call across the boundary changes the page and the journal only. *)
Lemma invoke_run {A : Type} (c : Call) (op : W -> result A * W) (m : Machine W) :
  invoke c op m
  = (fst (op (page m)),
     {| page := snd (op (page m)); step_log := step_log m;
        calls := calls m ++ [c] |}).
Proof. unfold invoke. destruct (op (page m)); reflexivity. Qed.

(** The same for a selector that matches nothing, with the journal. *)
Lemma poll_no_match (selector : string) :
  (forall w, fst (br_find_elements B selector w) = Ok []) ->
  forall more m, exists w',
    poll B (presence_of_all_elements_located B selector) more m
    = (Raised (timeout_error B),
       {| page := w'; step_log := step_log m;
          calls := calls m ++ repeat (CFindElements selector) (Datatypes.S more) |}).
Proof.
  intros Hnone more.
  induction more as [| more IH]; intros m; rewrite poll_unfold;
    (erewrite bind_ok;
     [| unfold presence_of_all_elements_located, find_elements;
        rewrite invoke_run, Hnone; reflexivity ]);
    change (truthy (@nil WebElement)) with false; cbv iota.
  - eexists. reflexivity.
  - match goal with |- context [poll B _ more ?m1] =>
      destruct (IH m1) as (w' & Hrest) end.
    rewrite Hrest. exists w'. simpl. rewrite <- app_assoc. reflexivity.
Qed.

End LocatorFacts.

(** ** The primitives and their failures *)

Section PrimitiveFacts.
Context {W : Type} (B : Browser W).

Lemma primitive_run_unfold (p : Primitive) (m : Machine W) :
  primitive_run B p m
  = try_except (primitive_try B p)
      (fun e => ret (primitive_prefix p ++ str e)) m.
Proof.
  destruct p as [[] | []]; try reflexivity.
  simpl. unfold AgentPy.search_product, try_except.
  destruct (AgentPy.search_product_body B product_name m) as [[a | e] m'];
    [reflexivity |].
  destruct (is_Exception (exn_class e)); [| reflexivity].
  unfold ret. rewrite <- !append_assoc. reflexivity.
Qed.

Lemma primitive_prefix_is_error (p : Primitive) (text : string) :
  success (outcome_of (primitive_prefix p ++ text)) = false.
Proof. destruct p as [[] | []]; reflexivity. Qed.

Lemma primitive_prefix_nonempty (p : Primitive) (text : string) :
  primitive_prefix p ++ text <> EmptyString.
Proof. destruct p as [[] | []]; discriminate. Qed.

Lemma primitive_run_caught (p : Primitive) m e m' :
  primitive_try B p m = (Raised e, m') ->
  is_Exception (exn_class e) = true ->
  primitive_run B p m = (Ok (primitive_prefix p ++ str e), m').
Proof.
  intros Hraised Hclass. rewrite primitive_run_unfold.
  rewrite (try_except_caught _ _ _ _ _ Hraised Hclass). reflexivity.
Qed.

Lemma primitive_run_filters (p : Primitive) m e :
  fst (primitive_run B p m) = Raised e ->
  is_Exception (exn_class e) = false.
Proof.
  rewrite primitive_run_unfold.
  apply (try_except_filters (primitive_try B p)
           (fun e => primitive_prefix p ++ str e)).
Qed.

End PrimitiveFacts.

(** The failures the design names are all of class [Exception]. *)
Lemma named_failures_are_Exceptions :
  is_Exception TimeoutException = true
  /\ is_Exception NoSuchElementException = true
  /\ is_Exception LookupError = true
  /\ is_Exception WebDriverException = true.
Proof. repeat split. Qed.

(** C1.  Whenever the [try] block of a primitive raises an error of
    class [Exception] (a timeout, an element that is not found, a
    driver-level error), the primitive does not raise: it returns the
    message made of its error prefix and the text of the error, which
    is a failed outcome and is not empty. *)
Theorem primitive_failure_becomes_outcome
    {W : Type} (B : Browser W) (p : Primitive) m e m' :
  primitive_try B p m = (Raised e, m') ->
  is_Exception (exn_class e) = true ->
  exists msg,
    primitive_run B p m = (Ok msg, m')
    /\ msg = primitive_prefix p ++ str e
    /\ success (outcome_of msg) = false
    /\ msg <> EmptyString.
Proof.
  intros Hraised Hclass.
  exists (primitive_prefix p ++ str e). repeat split.
  - apply primitive_run_caught; assumption.
  - apply primitive_prefix_is_error.
  - apply primitive_prefix_nonempty.
Qed.

(** On a page that never shows the landmark, the wait of
    [navigate_to_zepto] expires and the tool returns its error
    message. *)
Lemma primitive_failure_becomes_outcome_witness :
  let B := static_browser (page_showing []) in
  let p : Primitive := inl AgentPy.call_navigate_to_zepto in
  primitive_try B p start
  = (Raised (Exn TimeoutException "Message: "), snd (primitive_try B p start))
  /\ exists msg,
       primitive_run B p start = (Ok msg, snd (primitive_try B p start))
       /\ msg = "Error navigating to Zepto: Message: "
       /\ success (outcome_of msg) = false
       /\ msg <> EmptyString.
Proof.
  intros B p. split; [vm_compute; reflexivity |].
  apply (primitive_failure_becomes_outcome B p start
           (Exn TimeoutException "Message: ") (snd (primitive_try B p start)));
    vm_compute; reflexivity.
Defined.

(** C5 (as amended).  A driver-level error raised inside a primitive is
    caught at the primitive boundary like every other error of class
    [Exception]: the primitive returns its error message, a failed
    outcome, and raises nothing. *)
Theorem driver_error_is_converted
    {W : Type} (B : Browser W) (p : Primitive) m e m' :
  primitive_try B p m = (Raised e, m') ->
  exn_class e = WebDriverException ->
  primitive_run B p m = (Ok (primitive_prefix p ++ str e), m')
  /\ success (outcome_of (primitive_prefix p ++ str e)) = false
  /\ forall e', fst (primitive_run B p m) <> Raised e'.
Proof.
  intros Hraised Hclass.
  assert (Hrun : primitive_run B p m = (Ok (primitive_prefix p ++ str e), m')).
  { apply primitive_run_caught; [exact Hraised |]. rewrite Hclass. reflexivity. }
  repeat split.
  - exact Hrun.
  - apply primitive_prefix_is_error.
  - intros e'. rewrite Hrun. discriminate.
Qed.

Lemma driver_error_is_converted_witness :
  let p : Primitive := inl AgentPy.call_close_popups in
  primitive_try crashed_browser p start
  = (Raised session_lost, snd (primitive_try crashed_browser p start))
  /\ primitive_run crashed_browser p start
     = (Ok "Error closing popups: invalid session id",
        snd (primitive_try crashed_browser p start)).
Proof.
  intros p. split; [vm_compute; reflexivity |].
  apply (driver_error_is_converted crashed_browser p start session_lost
           (snd (primitive_try crashed_browser p start)));
    vm_compute; reflexivity.
Defined.

(** With a dead session the [try] blocks of [navigate_to_zepto] and
    [close_popups] raise the driver's error, and yet both tools return
    a message instead of letting the error out. *)
Lemma driver_error_does_not_propagate :
  fst (AgentPy.navigate_to_zepto_body crashed_browser start) = Raised session_lost
  /\ fst (AgentPy.close_popups_body crashed_browser start) = Raised session_lost
  /\ exn_class session_lost = WebDriverException
  /\ fst (AgentPy.navigate_to_zepto crashed_browser start)
     = Ok "Error navigating to Zepto: invalid session id"
  /\ fst (AgentPy.close_popups crashed_browser start)
     = Ok "Error closing popups: invalid session id"
  /\ ~ (exists e, fst (AgentPy.navigate_to_zepto crashed_browser start) = Raised e)
  /\ ~ (exists e, fst (AgentPy.close_popups crashed_browser start) = Raised e).
Proof.
  repeat split; try (vm_compute; reflexivity);
    intros [e He]; vm_compute in He; discriminate.
Qed.

(** ** search_product *)

Section SearchFacts.
Context {W : Type} (B : Browser W).

Lemma exists_never (g : GUIElement) :
  (forall w, fst (br_exists B g w) = Ok false) ->
  forall m, exists v m', exists_ B g m = (Ok v, m') /\ truthy v = false.
Proof.
  intros Hnever m. exists false. eexists. split; [| reflexivity].
  unfold exists_. rewrite invoke_run, Hnever. reflexivity.
Qed.

(** The scenario of the design: the search entry is there, but the
    searched term never shows up, so the ten-second wait expires. *)
Lemma search_landmark_never_renders (product_name : string) m w1 w2 w3 :
  br_click B (Link "Search for products") (page m) = (Ok tt, w1) ->
  br_write B product_name w1 = (Ok tt, w2) ->
  br_press B ENTER w2 = (Ok tt, w3) ->
  (forall w, fst (br_exists B (Text product_name) w) = Ok false) ->
  exists m',
    AgentPy.search_product_body B product_name m = (Raised (timeout_error B), m').
Proof.
  intros Hclick Hwrite Hpress Hnever.
  unfold AgentPy.search_product_body.
  erewrite bind_ok; [| unfold click; rewrite invoke_run, Hclick; reflexivity].
  erewrite bind_ok; [| unfold write; rewrite invoke_run; simpl; rewrite Hwrite; reflexivity].
  erewrite bind_ok; [| unfold press; rewrite invoke_run; simpl; rewrite Hpress; reflexivity].
  match goal with |- context [bind _ _ ?m0] =>
    destruct (poll_never B _ (exists_never _ Hnever) (br_polls B 10%N) m0)
      as (m' & Hwait)
  end.
  exists m'. apply bind_raised. exact Hwait.
Qed.

End SearchFacts.

(** C7.  Whenever the [try] block of [search_product] raises an error
    of class [Exception], the tool returns a failed outcome whose
    message contains "Error searching for '<product name>'". *)
Theorem search_product_failure_message
    {W : Type} (B : Browser W) (product_name : string) m e m' :
  AgentPy.search_product_body B product_name m = (Raised e, m') ->
  is_Exception (exn_class e) = true ->
  exists msg,
    AgentPy.search_product B product_name m = (Ok msg, m')
    /\ success (outcome_of msg) = false
    /\ contains ("Error searching for '" ++ product_name ++ "'") msg.
Proof.
  intros Hraised Hclass.
  exists ("Error searching for '" ++ product_name ++ "': " ++ str e).
  repeat split.
  - unfold AgentPy.search_product.
    rewrite (try_except_caught _ _ _ _ _ Hraised Hclass). reflexivity.
  - exists EmptyString, (": " ++ str e). simpl.
    rewrite !append_assoc. reflexivity.
Qed.

(** Searching for "milk" where the term never appears. *)
Lemma search_product_failure_message_witness :
  let B := static_browser home_page in
  AgentPy.search_product_body B "milk" start
  = (Raised (Exn TimeoutException "Message: "),
     snd (AgentPy.search_product_body B "milk" start))
  /\ exists msg,
       AgentPy.search_product B "milk" start
       = (Ok msg, snd (AgentPy.search_product_body B "milk" start))
       /\ success (outcome_of msg) = false
       /\ contains "Error searching for 'milk'" msg.
Proof.
  intros B. split; [vm_compute; reflexivity |].
  apply (search_product_failure_message B "milk" start
           (Exn TimeoutException "Message: ")
           (snd (AgentPy.search_product_body B "milk" start)));
    vm_compute; reflexivity.
Defined.

(** ** close_popups *)

(** C2 (what the code does).  On a page where no element matches any of
    the overlay selectors, the wait on the first selector expires after
    its polls, and [close_popups] returns the failed outcome
    "Error closing popups: " followed by the text of the timeout; it
    never reaches "Popups closed.". *)
Theorem close_popups_without_overlays
    {W : Type} (B : Browser W) (m : Machine W) :
  (forall selector w,
     In selector AgentPy.modal_selectors ->
     fst (br_find_elements B selector w) = Ok []) ->
  exists w',
    AgentPy.close_popups B m
    = (Ok ("Error closing popups: " ++ br_timeout_text B),
       {| page := w'; step_log := step_log m;
          calls := calls m
                   ++ repeat (CFindElements "button[class*='close']")
                        (Datatypes.S (br_polls B 1%N)) |})
    /\ success (outcome_of ("Error closing popups: " ++ br_timeout_text B)) = false.
Proof.
  intros Hnone.
  destruct (poll_no_match B "button[class*='close']"
              (fun w => Hnone _ w (or_introl eq_refl)) (br_polls B 1%N) m)
    as (w' & Hwait).
  exists w'. split; [| reflexivity].
  match type of Hwait with _ = (_, ?m1) =>
    assert (Hbody : AgentPy.close_popups_body B m = (Raised (timeout_error B), m1))
  end.
  { unfold AgentPy.close_popups_body, AgentPy.modal_selectors.
    apply bind_raised. cbn [for_each].
    apply bind_raised. apply bind_raised. exact Hwait. }
  unfold AgentPy.close_popups.
  rewrite (try_except_caught _ _ _ _ _ Hbody eq_refl). reflexivity.
Qed.

Lemma close_popups_without_overlays_witness :
  exists w',
    AgentPy.close_popups (static_browser home_page) start
    = (Ok "Error closing popups: Message: ",
       {| page := w'; step_log := fresh_log;
          calls := repeat (CFindElements "button[class*='close']") 3 |})
    /\ success (outcome_of "Error closing popups: Message: ") = false.
Proof.
  apply (close_popups_without_overlays (static_browser home_page) start).
  intros selector w _. reflexivity.
Defined.

(** ** save_screenshot *)

(** C3 (what the code does).  When [helium.get_driver()] answers [None],
    the callback of either script skips the screenshot and then raises
    [AttributeError] on [driver.current_url]: the step log is left as
    it was, with no URL line. *)
Theorem save_screenshot_without_driver
    {W : Type} (B : Browser W) (m : Machine W) :
  fst (br_get_driver B (br_elapse B 1%N (page m))) = Ok None ->
  let m' := {| page := snd (br_get_driver B (br_elapse B 1%N (page m)));
               step_log := step_log m;
               calls := calls m ++ [CSleep 1%N; CGetDriver] |} in
  AgentPy.save_screenshot B m = (Raised none_has_no_current_url, m')
  /\ ZeptoPy.save_screenshot B m = (Raised none_has_no_current_url, m').
Proof.
  intros Hnone m'.
  assert (Hdriver : get_driver B (snd (sleep B 1%N m)) = (Ok None, m')).
  { unfold get_driver. rewrite invoke_run. simpl. rewrite Hnone.
    unfold m'. rewrite <- app_assoc. reflexivity. }
  split.
  - unfold AgentPy.save_screenshot.
    erewrite bind_ok by reflexivity. run_ok Hdriver.
    erewrite bind_ok by reflexivity. reflexivity.
  - unfold ZeptoPy.save_screenshot.
    erewrite bind_ok by reflexivity. run_ok Hdriver.
    erewrite bind_ok by reflexivity. reflexivity.
Qed.

Lemma save_screenshot_without_driver_witness :
  AgentPy.save_screenshot (static_browser torn_down_page)
    (start_with "Successfully navigated to Zepto.")
  = (Raised none_has_no_current_url,
     {| page := tt;
        step_log := {| observations := Some "Successfully navigated to Zepto.";
                       observations_images := None |};
        calls := [CSleep 1%N; CGetDriver] |})
  /\ ZeptoPy.save_screenshot (static_browser torn_down_page)
       (start_with "Successfully navigated to Zepto.")
     = (Raised none_has_no_current_url,
        {| page := tt;
           step_log := {| observations := Some "Successfully navigated to Zepto.";
                          observations_images := None |};
           calls := [CSleep 1%N; CGetDriver] |}).
Proof.
  apply (save_screenshot_without_driver (static_browser torn_down_page)
           (start_with "Successfully navigated to Zepto.")).
  reflexivity.
Defined.

(** ** handle_location_popup *)

Section JournalFacts.
Context {W : Type} (B : Browser W).

Lemma invoke_calls {A : Type} (c : Call) (op : W -> result A * W) m r m' :
  invoke c op m = (r, m') -> calls m' = (calls m ++ [c])%list.
Proof. rewrite invoke_run. intros [= _ <-]. reflexivity. Qed.

Lemma exists_calls g m r m' :
  exists_ B g m = (r, m') -> calls m' = (calls m ++ [CExists g])%list.
Proof. apply invoke_calls. Qed.

Lemma click_calls g m r m' :
  click B g m = (r, m') -> calls m' = (calls m ++ [CClick g])%list.
Proof. apply invoke_calls. Qed.

Lemma write_calls text m r m' :
  write B text m = (r, m') -> calls m' = (calls m ++ [CWrite text])%list.
Proof. apply invoke_calls. Qed.

Lemma sleep_run secs (m : Machine W) : sleep B secs m = (Ok tt, snd (sleep B secs m)).
Proof. reflexivity. Qed.

Lemma sleep_calls secs (m : Machine W) :
  calls (snd (sleep B secs m)) = (calls m ++ [CSleep secs])%list.
Proof. reflexivity. Qed.

End JournalFacts.

(** Bringing a journal built call by call into the form [start ++ new]. *)
Ltac journal :=
  repeat match goal with
         | H : exists_ _ _ _ = _ |- _ => apply exists_calls in H
         | H : click _ _ _ = _ |- _ => apply click_calls in H
         | H : write _ _ _ = _ |- _ => apply write_calls in H
         end;
  repeat match goal with
         | H : calls ?m' = _ |- context [calls ?m'] => rewrite H
         end;
  rewrite ?sleep_calls, <- ?app_assoc; reflexivity.

(** C6.  [handle_location_popup] first sleeps two seconds.  Then it
    asks for the "Detect my location" button, the "Allow" button and
    the "Enter your Pin Code" text in this order, and runs the branch
    of the first one that exists and no other: a click on the button,
    or typing the PIN 400001 and clicking "Confirm".  When none of the
    three exists it returns exactly "No location popup detected.", a
    successful outcome, having clicked and typed nothing. *)
Theorem handle_location_popup_branches
    {W : Type} (B : Browser W) (m : Machine W) :
  let detect := Button "Detect my location" in
  let allow := Button "Allow" in
  let pin := Text "Enter your Pin Code" in
  let m1 := snd (sleep B 2%N m) in
  calls m1 = (calls m ++ [CSleep 2%N])%list
  /\ (forall m2 m3,
        exists_ B detect m1 = (Ok true, m2) ->
        click B detect m2 = (Ok tt, m3) ->
        AgentPy.handle_location_popup B m
        = (Ok "Clicked 'Detect my location'.", m3)
        /\ calls m3 = (calls m ++ [CSleep 2%N; CExists detect; CClick detect])%list)
  /\ (forall m2 m3 m4,
        exists_ B detect m1 = (Ok false, m2) ->
        exists_ B allow m2 = (Ok true, m3) ->
        click B allow m3 = (Ok tt, m4) ->
        AgentPy.handle_location_popup B m
        = (Ok "Clicked 'Allow' on location popup.", m4)
        /\ calls m4
           = (calls m ++ [CSleep 2%N; CExists detect; CExists allow; CClick allow])%list)
  /\ (forall m2 m3 m4 m5 m6,
        exists_ B detect m1 = (Ok false, m2) ->
        exists_ B allow m2 = (Ok false, m3) ->
        exists_ B pin m3 = (Ok true, m4) ->
        write B "400001" m4 = (Ok tt, m5) ->
        click B (Label "Confirm") m5 = (Ok tt, m6) ->
        AgentPy.handle_location_popup B m
        = (Ok "Entered PIN and confirmed location.", m6)
        /\ calls m6
           = (calls m ++ [CSleep 2%N; CExists detect; CExists allow; CExists pin;
                         CWrite "400001"; CClick (Label "Confirm")])%list)
  /\ (forall m2 m3 m4,
        exists_ B detect m1 = (Ok false, m2) ->
        exists_ B allow m2 = (Ok false, m3) ->
        exists_ B pin m3 = (Ok false, m4) ->
        AgentPy.handle_location_popup B m = (Ok "No location popup detected.", m4)
        /\ success (outcome_of "No location popup detected.") = true
        /\ calls m4
           = (calls m ++ [CSleep 2%N; CExists detect; CExists allow; CExists pin])%list).
Proof.
  intros detect allow pin m1.
  split; [reflexivity |].
  unfold AgentPy.handle_location_popup, AgentPy.handle_location_popup_body.
  fold detect allow pin.
  split; [| split; [| split]].
  - intros m2 m3 Hdetect Hclick. split; [| subst m1; journal].
    apply try_except_ok. run_ok (sleep_run B 2%N m). fold m1.
    run_ok Hdetect. run_ok Hclick. reflexivity.
  - intros m2 m3 m4 Hdetect Hallow Hclick. split; [| subst m1; journal].
    apply try_except_ok. run_ok (sleep_run B 2%N m). fold m1.
    run_ok Hdetect. run_ok Hallow. run_ok Hclick. reflexivity.
  - intros m2 m3 m4 m5 m6 Hdetect Hallow Hpin Hwrite Hclick.
    split; [| subst m1; journal].
    apply try_except_ok. run_ok (sleep_run B 2%N m). fold m1.
    run_ok Hdetect. run_ok Hallow. run_ok Hpin. run_ok Hwrite. run_ok Hclick.
    reflexivity.
  - intros m2 m3 m4 Hdetect Hallow Hpin.
    split; [| split; [reflexivity | subst m1; journal]].
    apply try_except_ok. run_ok (sleep_run B 2%N m). fold m1.
    run_ok Hdetect. run_ok Hallow. run_ok Hpin. reflexivity.
Qed.

(** Four pages, one for each way out; on the first two pages several
    of the controls exist at once and the earlier one wins. *)
Lemma handle_location_popup_branches_witness :
  fst (AgentPy.handle_location_popup
         (static_browser (page_showing [Button "Allow"; Button "Detect my location"]))
         start)
  = Ok "Clicked 'Detect my location'."
  /\ fst (AgentPy.handle_location_popup
            (static_browser (page_showing [Text "Enter your Pin Code"; Button "Allow"]))
            start)
     = Ok "Clicked 'Allow' on location popup."
  /\ fst (AgentPy.handle_location_popup
            (static_browser (page_showing [Text "Enter your Pin Code"; Label "Confirm"]))
            start)
     = Ok "Entered PIN and confirmed location."
  /\ AgentPy.handle_location_popup (static_browser home_page) start
     = (Ok "No location popup detected.",
        {| page := tt; step_log := fresh_log;
           calls := [CSleep 2%N; CExists (Button "Detect my location");
                     CExists (Button "Allow"); CExists (Text "Enter your Pin Code")] |}).
Proof.
  split; [| split; [| split]].
  - pose proof (handle_location_popup_branches
                  (static_browser (page_showing [Button "Allow"; Button "Detect my location"]))
                  start) as H.
    cbv zeta in H. destruct H as (_ & Hdetect & _).
    refine (f_equal fst (proj1 (Hdetect _ _ _ _))); reflexivity.
  - pose proof (handle_location_popup_branches
                  (static_browser (page_showing [Text "Enter your Pin Code"; Button "Allow"]))
                  start) as H.
    cbv zeta in H. destruct H as (_ & _ & Hallow & _).
    refine (f_equal fst (proj1 (Hallow _ _ _ _ _ _))); reflexivity.
  - pose proof (handle_location_popup_branches
                  (static_browser (page_showing [Text "Enter your Pin Code"; Label "Confirm"]))
                  start) as H.
    cbv zeta in H. destruct H as (_ & _ & _ & Hpin & _).
    refine (f_equal fst (proj1 (Hpin _ _ _ _ _ _ _ _ _ _))); reflexivity.
  - pose proof (handle_location_popup_branches (static_browser home_page) start) as H.
    cbv zeta in H. destruct H as (_ & _ & _ & _ & Hnone).
    refine (proj1 (Hnone _ _ _ _ _ _)); reflexivity.
Defined.

Section ScreenshotFacts.
Context {W : Type} (B : Browser W).

Lemma scripts_share_save_screenshot :
  ZeptoPy.save_screenshot B = AgentPy.save_screenshot B.
Proof. reflexivity. Qed.

Lemma append_empty (text : string) : text ++ EmptyString = text.
Proof. induction text as [| c text IH]; simpl; [| rewrite IH]; reflexivity. Qed.

(** However the capture ends, the text that was in the step log is
    still the beginning of what is there afterwards. *)
Lemma save_screenshot_keeps_text (m : Machine W) (text : string) :
  observations (step_log m) = Some text ->
  exists added,
    observations (step_log (snd (AgentPy.save_screenshot B m)))
    = Some (text ++ added).
Proof.
  intros Hprior.
  unfold AgentPy.save_screenshot, bind, sleep, get_driver, get_screenshot_as_png,
    Image_open, current_url, get_step_log, set_step_log, raise, ret.
  rewrite !invoke_run. cbn [page step_log calls fst snd].
  destruct (br_get_driver B (br_elapse B 1%N (page m))) as [[[d |] | e] w1];
    cbn [page step_log calls fst snd observations observations_images];
    try (exists EmptyString; rewrite append_empty; exact Hprior).
  rewrite !invoke_run. cbn [page step_log calls fst snd].
  destruct (br_get_screenshot_as_png B d w1) as [[bytes | e] w2];
    cbn [page step_log calls fst snd observations observations_images];
    try (exists EmptyString; rewrite append_empty; exact Hprior).
  destruct (br_Image_open B bytes) as [image | e];
    cbn [page step_log calls fst snd observations observations_images];
    try (exists EmptyString; rewrite append_empty; exact Hprior).
  rewrite !invoke_run. cbn [page step_log calls fst snd].
  destruct (br_current_url B d w2) as [[url | e] w3];
    cbn [page step_log calls fst snd observations observations_images];
    try (exists EmptyString; rewrite append_empty; exact Hprior).
  rewrite Hprior. unfold truthy, Truthy_option, Truthy_string.
  destruct text as [| c text];
    cbn [page step_log calls fst snd observations observations_images].
  - eexists. reflexivity.
  - eexists. reflexivity.
Qed.

End ScreenshotFacts.

(** C8.  With a live session the callback of either script ends with
    the line "Current URL: <url>" in the observations of the step log:
    after the text that was there and a newline when there was text,
    and as the whole observation when there was none (absent or empty).
    In every run, also one that raises, the text that was there stays
    at the beginning of the observations. *)
Theorem save_screenshot_appends_url
    {W : Type} (B : Browser W) (m : Machine W) :
  (forall text,
     observations (step_log m) = Some text ->
     exists added,
       observations (step_log (snd (AgentPy.save_screenshot B m)))
       = Some (text ++ added)
       /\ observations (step_log (snd (ZeptoPy.save_screenshot B m)))
          = Some (text ++ added))
  /\ (forall d bytes image url w1 w2 w3,
        br_get_driver B (br_elapse B 1%N (page m)) = (Ok (Some d), w1) ->
        br_get_screenshot_as_png B d w1 = (Ok bytes, w2) ->
        br_Image_open B bytes = Ok image ->
        br_current_url B d w2 = (Ok url, w3) ->
        let url_info := "Current URL: " ++ url in
        exists merged,
          let m' := {| page := w3;
                       step_log := {| observations := Some merged;
                                      observations_images := Some [image] |};
                       calls := calls m ++ [CSleep 1%N; CGetDriver;
                                            CScreenshot d; CCurrentUrl d] |} in
          AgentPy.save_screenshot B m = (Ok tt, m')
          /\ ZeptoPy.save_screenshot B m = (Ok tt, m')
          /\ (forall text,
                observations (step_log m) = Some text ->
                text <> EmptyString ->
                merged = text ++ newline ++ url_info)
          /\ (observations (step_log m) = None
              \/ observations (step_log m) = Some EmptyString ->
              merged = url_info)).
Proof.
  split.
  - intros text Hprior.
    destruct (save_screenshot_keeps_text B m text Hprior) as (added & Hkept).
    exists added. split; [| rewrite scripts_share_save_screenshot]; exact Hkept.
  - intros d bytes image url w1 w2 w3 Hdriver Hshot Himage Hurl url_info.
    exists (match observations (step_log m) with
            | Some (String c text) => String c text ++ newline ++ url_info
            | _ => url_info
            end).
    cbv zeta.
    match goal with |- ?run /\ _ => assert (Hrun : run) end.
    { unfold AgentPy.save_screenshot, bind, sleep, get_driver,
        get_screenshot_as_png, Image_open, current_url, get_step_log,
        set_step_log, ret.
      rewrite !invoke_run. cbn [page step_log calls fst snd].
      rewrite Hdriver. cbn [page step_log calls fst snd].
      rewrite !invoke_run. cbn [page step_log calls fst snd].
      rewrite Hshot. cbn [page step_log calls fst snd].
      rewrite Himage.
      rewrite !invoke_run. cbn [page step_log calls fst snd].
      rewrite Hurl.
      cbn [page step_log calls fst snd observations observations_images].
      rewrite <- !app_assoc. fold url_info.
      destruct (observations (step_log m)) as [[| c text] |]; reflexivity. }
    split; [exact Hrun |]. split; [exact Hrun |]. split.
    + intros text -> Hnonempty. destruct text; [contradiction | reflexivity].
    + intros [-> | ->]; reflexivity.
Qed.

Lemma save_screenshot_appends_url_witness :
  let B := static_browser home_page in
  AgentPy.save_screenshot B (start_with "Successfully navigated to Zepto.")
  = (Ok tt,
     {| page := tt;
        step_log :=
          {| observations :=
               Some ("Successfully navigated to Zepto." ++ newline
                     ++ "Current URL: https://www.zeptonow.com/");
             observations_images :=
               Some [ {| size := (1000, 1300)%N; png := ["P"; "N"; "G"]%char |} ] |};
        calls := [CSleep 1%N; CGetDriver; CScreenshot (Driver 0);
                  CCurrentUrl (Driver 0)] |})
  /\ observations (step_log (snd (ZeptoPy.save_screenshot B start)))
     = Some "Current URL: https://www.zeptonow.com/".
Proof.
  intros B. split.
  - destruct (proj2 (save_screenshot_appends_url B
                       (start_with "Successfully navigated to Zepto."))
                (Driver 0) ["P"; "N"; "G"]%char
                {| size := (1000, 1300)%N; png := ["P"; "N"; "G"]%char |}
                "https://www.zeptonow.com/" tt tt tt
                eq_refl eq_refl eq_refl eq_refl)
      as (merged & Hrun & _ & Htext & _).
    rewrite Hrun.
    rewrite (Htext "Successfully navigated to Zepto." eq_refl); [reflexivity |].
    discriminate.
  - destruct (proj2 (save_screenshot_appends_url B start)
                (Driver 0) ["P"; "N"; "G"]%char
                {| size := (1000, 1300)%N; png := ["P"; "N"; "G"]%char |}
                "https://www.zeptonow.com/" tt tt tt
                eq_refl eq_refl eq_refl eq_refl)
      as (merged & _ & Hrun & _ & Hnone).
    rewrite Hrun. cbn [snd step_log observations].
    rewrite (Hnone (or_introl eq_refl)). reflexivity.
Defined.

(** ** navigate_to_zepto *)

Section NavigateFacts.
Context {W : Type} (B : Browser W).

(** A wait that returns has seen a match. *)
Lemma poll_ok_truthy {A : Type} `{Truthy A} (probe : M (W:=W) A) more m v m' :
  poll B probe more m = (Ok v, m') -> truthy v = true.
Proof.
  revert m. induction more as [| more IH]; intros m; rewrite poll_unfold;
    unfold bind; destruct (probe m) as [[value | e] m1]; try discriminate;
    destruct (truthy value) eqn:Hvalue.
  - intros [= <- _]. exact Hvalue.
  - discriminate.
  - intros [= <- _]. exact Hvalue.
  - apply IH.
Qed.

(** A wait for a helium element only adds its polls to the journal. *)
Lemma poll_exists_calls g more m r m' :
  poll B (exists_ B g) more m = (r, m') ->
  exists n, calls m' = (calls m ++ repeat (CExists g) n)%list.
Proof.
  revert m. induction more as [| more IH]; intros m; rewrite poll_unfold;
    unfold bind; destruct (exists_ B g m) as [[value | e] m1] eqn:Hprobe;
    apply exists_calls in Hprobe.
  - destruct (truthy value); intros [= _ <-]; exists 1; exact Hprobe.
  - intros [= _ <-]. exists 1. exact Hprobe.
  - destruct (truthy value).
    + intros [= _ <-]. exists 1. exact Hprobe.
    + intros Hrest. destruct (IH _ Hrest) as (n & Hcalls).
      exists (Datatypes.S n). rewrite Hcalls, Hprobe, <- app_assoc. reflexivity.
  - intros [= _ <-]. exists 1. exact Hprobe.
Qed.

End NavigateFacts.

(** C9 (as amended).  [navigate_to_zepto] takes no argument: in both
    scripts it loads the fixed address https://www.zeptonow.com/ and
    then waits up to ten seconds for the text "Search for" to exist.
    It returns a successful outcome exactly when the page loaded and
    the wait saw the landmark, and its error message when loading or
    the wait raised. *)
Theorem navigate_to_zepto_outcome {W : Type} (B : Browser W) (m : Machine W) :
  let url := "https://www.zeptonow.com/" in
  let landmark := wait_until B (exists_ B (Text "Search for")) 10%N in
  ZeptoPy.navigate_to_zepto B m = AgentPy.navigate_to_zepto B m
  /\ (exists rest,
        calls (snd (AgentPy.navigate_to_zepto B m))
        = (calls m ++ CGoTo url :: rest)%list
        /\ forall c, In c rest -> c = CExists (Text "Search for"))
  /\ (forall msg m',
        AgentPy.navigate_to_zepto B m = (Ok msg, m') ->
        (success (outcome_of msg) = true
         <-> exists m1, go_to B url m = (Ok tt, m1) /\ landmark m1 = (Ok true, m')))
  /\ (forall e m',
        go_to B url m = (Raised e, m')
        \/ (exists m1, go_to B url m = (Ok tt, m1) /\ landmark m1 = (Raised e, m')) ->
        is_Exception (exn_class e) = true ->
        AgentPy.navigate_to_zepto B m
        = (Ok ("Error navigating to Zepto: " ++ str e), m')
        /\ success (outcome_of ("Error navigating to Zepto: " ++ str e)) = false).
Proof.
  intros url landmark.
  split; [reflexivity |].
  unfold AgentPy.navigate_to_zepto, AgentPy.navigate_to_zepto_body, try_except.
  fold url. change (wait_until B (exists_ B (Text "Search for")) 10%N) with landmark.
  unfold bind.
  destruct (go_to B url m) as [[[] | e] m1] eqn:Hload.
  - pose proof (invoke_calls _ _ _ _ _ Hload) as Hloaded.
    destruct (landmark m1) as [[found | e] m2] eqn:Hwait.
    + pose proof (poll_ok_truthy B _ _ _ _ _ Hwait) as Hfound.
      change (found = true) in Hfound. subst found.
      destruct (poll_exists_calls B _ _ _ _ _ Hwait) as (n & Hcalls).
      split; [| split].
      * exists (repeat (CExists (Text "Search for")) n). split.
        -- cbn [snd ret]. rewrite Hcalls, Hloaded, <- app_assoc. reflexivity.
        -- intros c Hin. apply repeat_spec in Hin. exact Hin.
      * intros msg m' [= <- <-]. split; [| reflexivity].
        intros _. exists m1. split; [reflexivity | exact Hwait].
      * intros e m' [Habs | (m1' & Heq & Habs)] _; [discriminate |].
        injection Heq as <-. congruence.
    + destruct (poll_exists_calls B _ _ _ _ _ Hwait) as (n & Hcalls).
      split; [| split].
      * exists (repeat (CExists (Text "Search for")) n). split.
        -- destruct (is_Exception (exn_class e)); cbn [snd ret];
             rewrite Hcalls, Hloaded, <- app_assoc; reflexivity.
        -- intros c Hin. apply repeat_spec in Hin. exact Hin.
      * intros msg m'. destruct (is_Exception (exn_class e)); [| discriminate].
        intros [= <- <-]. split; [discriminate |].
        intros (m1' & Heq & Habs). injection Heq as <-. congruence.
      * intros e' m' [Habs | (m1' & Heq & Habs)] Hclass; [discriminate |].
        injection Heq as <-. rewrite Hwait in Habs. injection Habs as <- <-.
        rewrite Hclass. split; reflexivity.
  - pose proof (invoke_calls _ _ _ _ _ Hload) as Hloaded.
    split; [| split].
    + exists []. split; [| intros c []].
      destruct (is_Exception (exn_class e)); cbn [snd ret]; exact Hloaded.
    + intros msg m'. destruct (is_Exception (exn_class e)); [| discriminate].
      intros [= <- <-]. split; [discriminate |].
      intros (m1' & Habs & _). discriminate.
    + intros e' m' [[= <- <-] | (m1' & Habs & _)] Hclass; [| discriminate].
      rewrite Hclass. split; reflexivity.
Qed.

(** The home page, where the landmark is there at the first poll, and a
    page that never shows it. *)
Lemma navigate_to_zepto_outcome_witness :
  (success (outcome_of "Successfully navigated to Zepto.") = true
   <-> exists m1,
         go_to (static_browser home_page) "https://www.zeptonow.com/" start
         = (Ok tt, m1)
         /\ wait_until (static_browser home_page)
              (exists_ (static_browser home_page) (Text "Search for")) 10%N m1
            = (Ok true, snd (AgentPy.navigate_to_zepto (static_browser home_page) start)))
  /\ fst (AgentPy.navigate_to_zepto (static_browser (page_showing [])) start)
     = Ok "Error navigating to Zepto: Message: ".
Proof.
  split.
  - refine (proj1 (proj2 (proj2
              (navigate_to_zepto_outcome (static_browser home_page) start))) _ _ _).
    reflexivity.
  - refine (f_equal fst (proj1 (proj2 (proj2 (proj2
              (navigate_to_zepto_outcome (static_browser (page_showing [])) start)))
              (Exn TimeoutException "Message: ") _ _ _))).
    + right. eexists. split; vm_compute; reflexivity.
    + reflexivity.
Defined.

(** The tool has no way to be told another address: it loads the Zepto
    home page and nothing else. *)
Lemma navigate_loads_only_zepto :
  calls (snd (AgentPy.navigate_to_zepto (static_browser home_page) start))
  = [CGoTo "https://www.zeptonow.com/"; CExists (Text "Search for")]
  /\ calls (snd (ZeptoPy.navigate_to_zepto (static_browser home_page) start))
     = [CGoTo "https://www.zeptonow.com/"; CExists (Text "Search for")]
  /\ ~ In (CGoTo "https://example.com/")
         (calls (snd (AgentPy.navigate_to_zepto (static_browser home_page) start)))
  /\ ~ In (CGoTo "https://example.com/")
         (calls (snd (ZeptoPy.navigate_to_zepto (static_browser home_page) start))).
Proof.
  repeat split; try (vm_compute; reflexivity);
    vm_compute; intros [H | [H | []]]; discriminate.
Qed.

(** ** scrape_categories *)

Section ScrapeFacts.
Context {W : Type} (B : Browser W).

(** The loop reads the alt text of every image in turn and appends the
    stripped non-empty ones to the names it already has. *)
Lemma collect_alt_texts_run (alt_of : WebElement -> option string) imgs :
  (forall img w,
     In img imgs -> fst (br_get_attribute B img "alt" w) = Ok (alt_of img)) ->
  forall names m, exists m',
    ZeptoPy.collect_alt_texts B imgs names m
    = (Ok (names ++ stripped_alt_texts (map alt_of imgs))%list, m').
Proof.
  induction imgs as [| img rest IH]; intros Halt names m.
  - exists m. simpl. rewrite app_nil_r. reflexivity.
  - cbn [ZeptoPy.collect_alt_texts].
    erewrite bind_ok;
      [| unfold get_attribute; rewrite invoke_run, (Halt img _ (or_introl eq_refl));
         reflexivity].
    assert (Hrest : forall img' w, In img' rest ->
              fst (br_get_attribute B img' "alt" w) = Ok (alt_of img'))
      by (intros img' w Hin; apply Halt; right; exact Hin).
    cbn [map stripped_alt_texts flat_map].
    destruct (alt_of img) as [[| c text] |]; cbv beta iota.
    + apply (IH Hrest).
    + change (truthy (String c text)) with true. cbv iota.
      match goal with |- context [ZeptoPy.collect_alt_texts B rest ?acc ?m1] =>
        destruct (IH Hrest acc m1) as (m' & Hrun) end.
      exists m'. rewrite Hrun, <- app_assoc. reflexivity.
    + apply (IH Hrest).
Qed.

(** An image with a non-empty alt text makes the list of names
    non-empty. *)
Lemma stripped_alt_texts_nonempty (alts : list (option string)) text :
  In (Some text) alts -> text <> EmptyString -> stripped_alt_texts alts <> [].
Proof.
  induction alts as [| alt rest IH]; intros Hin Htext; [destruct Hin |].
  destruct Hin as [-> | Hin]; simpl.
  - destruct text; [contradiction | discriminate].
  - destruct alt as [[| c s] |]; simpl; try discriminate; apply IH; assumption.
Qed.

(** Images without a non-empty alt text give no name. *)
Lemma stripped_alt_texts_empty (alts : list (option string)) :
  (forall alt, In alt alts -> alt = None \/ alt = Some EmptyString) ->
  stripped_alt_texts alts = [].
Proof.
  induction alts as [| alt rest IH]; intros Hall; [reflexivity |].
  simpl. destruct (Hall alt (or_introl eq_refl)) as [-> | ->]; simpl;
    apply IH; intros a Ha; apply Hall; right; exact Ha.
Qed.

(** A selector that matches nothing makes the presence wait expire. *)
Lemma presence_wait_expires (selector : string) :
  (forall w, fst (br_find_elements B selector w) = Ok []) ->
  forall timeout m, exists m',
    until B (presence_of_element_located B selector) timeout m
    = (Raised (timeout_error B), m').
Proof.
  intros Hnone timeout. apply poll_never. intros m.
  exists None. eexists. split; [| reflexivity].
  unfold presence_of_element_located.
  erewrite bind_ok;
    [| unfold find_elements; rewrite invoke_run, Hnone; reflexivity].
  reflexivity.
Qed.

End ScrapeFacts.

(** X14.  What [scrape_categories] answers once its wait has seen a
    match and the lookup that follows returns the images [imgs] with
    alt texts [alt_of]: if some image has a non-empty alt text, it is
    "Categories found: " followed by the stripped non-empty alt texts
    joined by ", " in page order; if there are images and none has a
    non-empty alt text, it is "No alt text found in category images.";
    and if that lookup returns no image, it is
    "No category images found. Possibly incorrect selector.".  When no
    image matches during the wait it is "Error scraping categories: "
    followed by the text of the timeout. *)
Theorem scrape_categories_result {W : Type} (B : Browser W) (m : Machine W) :
  ((forall w, fst (br_find_elements B ZeptoPy.category_selector w) = Ok []) ->
   fst (ZeptoPy.scrape_categories B m)
   = Ok ("Error scraping categories: " ++ br_timeout_text B))
  /\ (forall found m1 imgs m2 alt_of,
        until B (presence_of_element_located B ZeptoPy.category_selector) 3%N m
        = (Ok found, m1) ->
        find_elements B ZeptoPy.category_selector m1 = (Ok imgs, m2) ->
        (forall img w,
           In img imgs -> fst (br_get_attribute B img "alt" w) = Ok (alt_of img)) ->
        ((exists img text,
            In img imgs /\ alt_of img = Some text /\ text <> EmptyString) ->
         fst (ZeptoPy.scrape_categories B m)
         = Ok ("Categories found: "
               ++ join ", " (stripped_alt_texts (map alt_of imgs))))
        /\ (imgs <> [] ->
            (forall img, In img imgs ->
               alt_of img = None \/ alt_of img = Some EmptyString) ->
            fst (ZeptoPy.scrape_categories B m)
            = Ok "No alt text found in category images.")
        /\ (imgs = [] ->
            fst (ZeptoPy.scrape_categories B m)
            = Ok "No category images found. Possibly incorrect selector.")).
Proof.
  split.
  - intros Hnone.
    destruct (presence_wait_expires B _ Hnone 3%N m) as (m' & Hwait).
    unfold ZeptoPy.scrape_categories, ZeptoPy.scrape_categories_body.
    rewrite (try_except_caught _ _ m (timeout_error B) m'
               (bind_raised _ _ _ _ _ Hwait) eq_refl).
    reflexivity.
  - intros found m1 imgs m2 alt_of Hwait Hfind Halt.
    destruct (collect_alt_texts_run B alt_of imgs Halt [] m2) as (m3 & Hcollect).
    cbn [app] in Hcollect.
    assert (Hbody : forall msg m',
              (if negb (truthy imgs)
               then ret "No category images found. Possibly incorrect selector."
               else category_names <- ZeptoPy.collect_alt_texts B imgs [] ;;
                    if truthy category_names
                    then ret ("Categories found: " ++ join ", " category_names)
                    else ret "No alt text found in category images.") m2
              = (Ok msg, m') ->
              fst (ZeptoPy.scrape_categories B m) = Ok msg).
    { intros msg m' Hrest. unfold ZeptoPy.scrape_categories.
      erewrite try_except_ok; [reflexivity |].
      unfold ZeptoPy.scrape_categories_body.
      run_ok Hwait. run_ok Hfind. exact Hrest. }
    split; [| split].
    + intros (img & text & Hin & Himg & Htext).
      assert (Hnames : stripped_alt_texts (map alt_of imgs) <> []).
      { apply (stripped_alt_texts_nonempty _ text); [| exact Htext].
        rewrite <- Himg. apply in_map. exact Hin. }
      destruct imgs as [| img0 rest]; [destruct Hin |].
      eapply Hbody. change (truthy (img0 :: rest)) with true. cbv beta iota.
      cbn [negb]. run_ok Hcollect.
      destruct (stripped_alt_texts (map alt_of (img0 :: rest))) as [| n ns];
        [contradiction |].
      reflexivity.
    + intros Himgs Hall.
      assert (Hnames : stripped_alt_texts (map alt_of imgs) = []).
      { apply stripped_alt_texts_empty. intros alt Hin.
        apply in_map_iff in Hin. destruct Hin as (img & <- & Hin).
        apply Hall. exact Hin. }
      destruct imgs as [| img0 rest]; [contradiction |].
      eapply Hbody. change (truthy (img0 :: rest)) with true. cbv beta iota.
      cbn [negb]. run_ok Hcollect. rewrite Hnames. reflexivity.
    + intros ->. eapply Hbody. reflexivity.
Qed.

(** A page with three category images, one with none of them having an
    alt text, one whose image is gone after the wait, and one without
    any category image. *)
Lemma scrape_categories_result_witness :
  fst (ZeptoPy.scrape_categories (static_browser (category_page grocery_alts)) start)
  = Ok "Categories found: Fruits & Vegetables, Dairy, Bread & Eggs"
  /\ fst (ZeptoPy.scrape_categories
            (static_browser (category_page (fun _ => Some EmptyString))) start)
     = Ok "No alt text found in category images."
  /\ fst (ZeptoPy.scrape_categories vanishing_browser first_lookup)
     = Ok "No category images found. Possibly incorrect selector."
  /\ fst (ZeptoPy.scrape_categories (static_browser home_page) start)
     = Ok "Error scraping categories: Message: ".
Proof.
  split; [| split; [| split]].
  - refine (proj1 (proj2 (scrape_categories_result
                            (static_browser (category_page grocery_alts)) start)
                     (Some (Element 1)) _ [Element 1; Element 2; Element 3] _
                     grocery_alts _ _ _) _).
    + reflexivity.
    + reflexivity.
    + intros img w [<- | [<- | [<- | []]]]; reflexivity.
    + exists (Element 1), " Fruits & Vegetables".
      split; [left; reflexivity | split; [reflexivity | discriminate]].
  - refine (proj1 (proj2 (proj2 (scrape_categories_result
                            (static_browser (category_page (fun _ => Some EmptyString)))
                            start)
                     (Some (Element 1)) _ [Element 1; Element 2; Element 3] _
                     (fun _ => Some EmptyString) _ _ _)) _ _).
    + reflexivity.
    + reflexivity.
    + intros img w _. reflexivity.
    + discriminate.
    + intros img _. right. reflexivity.
  - refine (proj2 (proj2 (proj2 (scrape_categories_result
                            vanishing_browser first_lookup)
                     (Some (Element 1)) _ [] _ (fun _ => None) _ _ _)) _).
    + reflexivity.
    + reflexivity.
    + intros img w [].
    + reflexivity.
  - refine (proj1 (scrape_categories_result (static_browser home_page) start) _).
    intros w. reflexivity.
Defined.

(** A presence wait on a selector that matches nothing polls and
    expires. *)
Lemma poll_presence_no_match {W : Type} (B : Browser W) (selector : string) :
  (forall w, fst (br_find_elements B selector w) = Ok []) ->
  forall more m, exists w',
    poll B (presence_of_element_located B selector) more m
    = (Raised (timeout_error B),
       {| page := w'; step_log := step_log m;
          calls := calls m ++ repeat (CFindElements selector) (Datatypes.S more) |}).
Proof.
  intros Hnone more.
  induction more as [| more IH]; intros m; rewrite poll_unfold;
    (erewrite bind_ok;
     [| unfold presence_of_element_located;
        erewrite bind_ok;
        [| unfold find_elements; rewrite invoke_run, Hnone; reflexivity];
        reflexivity ]);
    change (truthy (hd_error (@nil WebElement))) with false; cbv iota.
  - eexists. reflexivity.
  - match goal with |- context [poll B _ more ?m1] =>
      destruct (IH m1) as (w' & Hrest) end.
    rewrite Hrest. exists w'. simpl. rewrite <- app_assoc. reflexivity.
Qed.

(** C10 (what the code does).  On a page where no image matches the
    category selector, the wait in front of the lookup expires:
    [scrape_categories] polls the selector, does nothing else, and
    returns the failed outcome "Error scraping categories: " followed
    by the text of the timeout.  It does not reach the branch that
    answers "No category images found. Possibly incorrect selector.". *)
Theorem scrape_categories_without_images
    {W : Type} (B : Browser W) (m : Machine W) :
  (forall w, fst (br_find_elements B ZeptoPy.category_selector w) = Ok []) ->
  exists w',
    ZeptoPy.scrape_categories B m
    = (Ok ("Error scraping categories: " ++ br_timeout_text B),
       {| page := w'; step_log := step_log m;
          calls := calls m
                   ++ repeat (CFindElements ZeptoPy.category_selector)
                        (Datatypes.S (br_polls B 3%N)) |})
    /\ "Error scraping categories: " ++ br_timeout_text B
       <> "No category images found. Possibly incorrect selector."
    /\ success (outcome_of ("Error scraping categories: " ++ br_timeout_text B))
       = false.
Proof.
  intros Hnone.
  destruct (poll_presence_no_match B _ Hnone (br_polls B 3%N) m) as (w' & Hwait).
  exists w'. split; [| split; [discriminate | reflexivity]].
  unfold ZeptoPy.scrape_categories, ZeptoPy.scrape_categories_body.
  rewrite (try_except_caught _ _ m (timeout_error B) _
             (bind_raised _ _ _ _ _ Hwait) eq_refl).
  reflexivity.
Qed.

(** The home page has no category image. *)
Lemma scrape_categories_without_images_witness :
  exists w',
    ZeptoPy.scrape_categories (static_browser home_page) start
    = (Ok "Error scraping categories: Message: ",
       {| page := w'; step_log := fresh_log;
          calls := repeat (CFindElements ZeptoPy.category_selector) 7 |})
    /\ "Error scraping categories: Message: "
       <> "No category images found. Possibly incorrect selector."
    /\ success (outcome_of "Error scraping categories: Message: ") = false.
Proof.
  apply (scrape_categories_without_images (static_browser home_page) start).
  intros w. reflexivity.
Defined.

(** ** The control loop *)

Section LoopFacts.
Context {W : Type} {ToolCall : Type}.
Variable dispatch : ToolCall -> M (W:=W) string.

(** The history never shrinks and grows by at most the budget. *)
Lemma control_loop_length chooseNextAction callbacks budget :
  forall history m,
    let final := snd (fst (control_loop dispatch chooseNextAction callbacks
                             budget history m)) in
    length history <= length final <= length history + budget.
Proof.
  induction budget as [| budget IH]; intros history m; cbn [control_loop].
  - cbn [fst snd]. lia.
  - destruct (chooseNextAction history) as [c | answer]; [| cbn [fst snd]; lia].
    match goal with |- context [match ?turn with _ => _ end] =>
      destruct turn as [[step | e] m'] end; [| cbn [fst snd]; lia].
    specialize (IH (history ++ [step])%list m'). cbv zeta in *.
    rewrite length_app in IH. cbn [length] in IH. lia.
Qed.

(** With a planner that always asks for a primitive, the loop ends by
    exhausting its budget, after exactly that many steps, unless an
    error escapes a step earlier. *)
Lemma control_loop_never_done (next : History -> ToolCall) callbacks budget :
  forall history m,
    match fst (control_loop dispatch (fun h => Invoke (next h)) callbacks
                 budget history m) with
    | (Aborted _, final) => length final = length history + budget
    | (Failed _, final) => length final < length history + budget
    | (Done _, _) => False
    end.
Proof.
  induction budget as [| budget IH]; intros history m; cbn [control_loop].
  - cbn [fst]. lia.
  - match goal with |- context [match ?turn with _ => _ end] =>
      destruct turn as [[step | e] m'] end; [| cbn [fst]; lia].
    specialize (IH (history ++ [step])%list m').
    destruct (fst (control_loop dispatch (fun h => Invoke (next h)) callbacks
                     budget (history ++ [step])%list m')) as [[answer | msg | e] final];
      rewrite ?length_app in IH; cbn [length] in IH; try lia.
Qed.

End LoopFacts.

(** C4.  The step budget is 20 in [agent.py] and 10 in [zepto.py].
    Whatever the Decision Function answers, a run of the control loop
    records at most that many steps and ends; with a Decision Function
    that never gives a final answer the run ends as aborted after
    exactly that many steps, unless an error escaping a step has ended
    it before. *)
Theorem run_within_step_budget {W : Type} (B : Browser W) :
  max_steps (AgentPy.agent B) = 20
  /\ max_steps (ZeptoPy.agent B) = 10
  /\ (forall chooseNextAction m,
        length (snd (fst (run (AgentPy.dispatch B) chooseNextAction
                            (AgentPy.agent B) m))) <= 20)
  /\ (forall chooseNextAction m,
        length (snd (fst (run (ZeptoPy.dispatch B) chooseNextAction
                            (ZeptoPy.agent B) m))) <= 10)
  /\ (forall next m,
        match fst (run (AgentPy.dispatch B) (fun h => Invoke (next h))
                     (AgentPy.agent B) m) with
        | (Aborted _, final) => length final = 20
        | (Failed _, final) => length final < 20
        | (Done _, _) => False
        end)
  /\ (forall next m,
        match fst (run (ZeptoPy.dispatch B) (fun h => Invoke (next h))
                     (ZeptoPy.agent B) m) with
        | (Aborted _, final) => length final = 10
        | (Failed _, final) => length final < 10
        | (Done _, _) => False
        end).
Proof.
  split; [reflexivity |]. split; [reflexivity |].
  split; [| split; [| split]].
  - intros chooseNextAction m.
    apply (control_loop_length (AgentPy.dispatch B) chooseNextAction
             [AgentPy.save_screenshot B] 20 [] m).
  - intros chooseNextAction m.
    apply (control_loop_length (ZeptoPy.dispatch B) chooseNextAction
             [ZeptoPy.save_screenshot B] 10 [] m).
  - intros next m.
    apply (control_loop_never_done (AgentPy.dispatch B) next
             [AgentPy.save_screenshot B] 20 [] m).
  - intros next m.
    apply (control_loop_never_done (ZeptoPy.dispatch B) next
             [ZeptoPy.save_screenshot B] 10 [] m).
Qed.

(** A planner that asks for [navigate_to_zepto] for ever, on the home
    page: both runs are aborted, after 20 and after 10 steps. *)
Example stubborn_planner_is_cut_off :
  let B := static_browser home_page in
  (let out := fst (run (AgentPy.dispatch B) stubborn_agent_planner
                     (AgentPy.agent B) start) in
   fst out = Aborted "Successfully navigated to Zepto." /\ length (snd out) = 20)
  /\ (let out := fst (run (ZeptoPy.dispatch B) stubborn_zepto_planner
                        (ZeptoPy.agent B) start) in
      fst out = Aborted "Successfully navigated to Zepto." /\ length (snd out) = 10).
Proof. vm_compute. repeat split. Qed.

(** * Further results *)

(** ** What a tool returns and what it lets out *)

(** Taking a run apart along its sequence of operations: every
    operation whose result decides the run is split into its cases. *)
Ltac split_run H :=
  unfold bind in H;
  repeat (match type of H with
          | context [match ?x with _ => _ end] => destruct x
          end;
          cbv beta iota in H; try discriminate H).

Section MessageFacts.
Context {W : Type} (B : Browser W).

(** When the [try] block of a tool returns, its message is one of the
    tool's success messages: it does not start with "Error " and is not
    empty. *)
Lemma try_block_message (p : Primitive) m msg m' :
  primitive_try B p m = (Ok msg, m') ->
  success (outcome_of msg) = true /\ msg <> EmptyString.
Proof.
  intros Hrun.
  destruct p as [[| | product_name | | |] | []]; cbn [primitive_try] in Hrun;
    unfold AgentPy.try_block, ZeptoPy.try_block,
      AgentPy.navigate_to_zepto_body, AgentPy.handle_location_popup_body,
      AgentPy.search_product_body, AgentPy.select_first_product_body,
      AgentPy.add_to_cart_body, AgentPy.close_popups_body,
      ZeptoPy.navigate_to_zepto_body, ZeptoPy.scrape_categories_body in Hrun;
    split_run Hrun; unfold ret in Hrun;
    injection Hrun as <- _; split; solve [reflexivity | simpl; discriminate].
Qed.

End MessageFacts.

(** X1.  A message returned by a tool is never empty, and it starts
    with "Error " exactly when the [try] block of the tool raised: then
    it is the tool's error prefix followed by the text of the error. *)
Theorem tool_reports_error_iff_raised
    {W : Type} (B : Browser W) (p : Primitive) m msg m' :
  primitive_run B p m = (Ok msg, m') ->
  msg <> EmptyString
  /\ (success (outcome_of msg) = false
      <-> exists e,
            primitive_try B p m = (Raised e, m')
            /\ msg = primitive_prefix p ++ str e).
Proof.
  rewrite primitive_run_unfold. unfold try_except.
  destruct (primitive_try B p m) as [[a | e] m0] eqn:Htry.
  - intros [= <- <-].
    destruct (try_block_message B p m a m0 Htry) as (Hsuccess & Hnonempty).
    split; [exact Hnonempty |]. rewrite Hsuccess. split; [discriminate |].
    intros (e & Habs & _). discriminate.
  - destruct (is_Exception (exn_class e)); [| discriminate].
    intros [= <- <-]. split; [apply primitive_prefix_nonempty |].
    split; [| intros _; apply primitive_prefix_is_error].
    intros _. exists e. split; reflexivity.
Qed.

Lemma tool_reports_error_iff_raised_witness :
  let B := static_browser (page_showing [Text "Search for"]) in
  let p : Primitive := inl AgentPy.call_add_to_cart in
  let msg := "Error adding product to the cart: Message: " in
  msg <> EmptyString
  /\ (success (outcome_of msg) = false
      <-> exists e,
            primitive_try B p start = (Raised e, snd (primitive_run B p start))
            /\ msg = primitive_prefix p ++ str e).
Proof.
  intros B p msg.
  apply (tool_reports_error_iff_raised B p start msg (snd (primitive_run B p start))).
  vm_compute. reflexivity.
Defined.

(** X2.  A tool raises exactly when its [try] block raised an error
    that is not of class [Exception] (a [KeyboardInterrupt], a
    [SystemExit]); that error leaves the tool as it is. *)
Theorem tool_raises_iff_not_Exception
    {W : Type} (B : Browser W) (p : Primitive) m e m' :
  primitive_run B p m = (Raised e, m')
  <-> primitive_try B p m = (Raised e, m')
      /\ is_Exception (exn_class e) = false.
Proof.
  rewrite primitive_run_unfold. unfold try_except.
  destruct (primitive_try B p m) as [[a | e0] m0].
  - split; [discriminate | intros [Habs _]; discriminate].
  - destruct (is_Exception (exn_class e0)) eqn:Hclass.
    + split; [discriminate |].
      intros [[= <- <-] Habs]. congruence.
    + split.
      * intros [= <- <-]. split; [reflexivity | exact Hclass].
      * intros [[= <- <-] _]. reflexivity.
Qed.

(** Ctrl-C while the page loads ends [navigate_to_zepto] with the
    interrupt itself. *)
Lemma tool_raises_iff_not_Exception_witness :
  fst (AgentPy.navigate_to_zepto interrupted_browser start) = Raised interrupt.
Proof.
  refine (f_equal fst (proj2 (tool_raises_iff_not_Exception interrupted_browser
            (inl AgentPy.call_navigate_to_zepto) start interrupt
            (snd (AgentPy.navigate_to_zepto interrupted_browser start))) _)).
  split; reflexivity.
Defined.

(** ** Tools that wait for a control and click it *)

Section WaitThenClick.
Context {W : Type} (B : Browser W).
Variables (target : GUIElement) (done failed : string).
Hypothesis done_is_success : success (outcome_of done) = true.
Hypothesis failed_is_error :
  forall text, success (outcome_of (failed ++ text)) = false.

(** The shape [select_first_product] and [add_to_cart] share. *)
Let tool : M (W:=W) string :=
  try_except
    (wait_until B (exists_ B target) 10%N ;; click B target ;; ret done)
    (fun e => ret (failed ++ str e)).

Lemma wait_then_click_run (m : Machine W) :
  (forall msg m',
     tool m = (Ok msg, m') ->
     (success (outcome_of msg) = true
      <-> exists m1,
            wait_until B (exists_ B target) 10%N m = (Ok true, m1)
            /\ click B target m1 = (Ok tt, m')))
  /\ exists polls clicks,
       calls (snd (tool m))
       = (calls m ++ repeat (CExists target) polls ++ clicks)%list
       /\ (clicks = []
           \/ (clicks = [CClick target]
               /\ exists m1,
                    wait_until B (exists_ B target) 10%N m = (Ok true, m1))).
Proof.
  unfold tool, try_except, bind.
  destruct (wait_until B (exists_ B target) 10%N m) as [[found | e] m1] eqn:Hwait.
  - pose proof (poll_ok_truthy B _ _ _ _ _ Hwait) as Hfound.
    change (found = true) in Hfound. subst found.
    destruct (poll_exists_calls B _ _ _ _ _ Hwait) as (polls & Hpolls).
    destruct (click B target m1) as [[[] | e] m2] eqn:Hclick;
      pose proof (click_calls B _ _ _ _ Hclick) as Hclicked.
    + split.
      * intros msg m' [= <- <-]. rewrite done_is_success.
        split; [| reflexivity]. intros _. exists m1. split; [reflexivity | exact Hclick].
      * exists polls, [CClick target]. cbn [snd ret]. split.
        -- rewrite Hclicked, Hpolls, <- app_assoc. reflexivity.
        -- right. split; [reflexivity |]. exists m1. reflexivity.
    + split.
      * intros msg m'. destruct (is_Exception (exn_class e)); [| discriminate].
        intros [= <- <-]. rewrite failed_is_error. split; [discriminate |].
        intros (m1' & Heq & Habs). injection Heq as <-. congruence.
      * exists polls, [CClick target]. split.
        -- destruct (is_Exception (exn_class e)); cbn [snd ret];
             rewrite Hclicked, Hpolls, <- app_assoc; reflexivity.
        -- right. split; [reflexivity |]. exists m1. reflexivity.
  - destruct (poll_exists_calls B _ _ _ _ _ Hwait) as (polls & Hpolls).
    split.
    + intros msg m'. destruct (is_Exception (exn_class e)); [| discriminate].
      intros [= <- <-]. rewrite failed_is_error. split; [discriminate |].
      intros (m1' & Habs & _). discriminate.
    + exists polls, []. split; [| left; reflexivity].
      rewrite app_nil_r.
      destruct (is_Exception (exn_class e)); cbn [snd ret]; exact Hpolls.
Qed.

End WaitThenClick.

(** X3.  [select_first_product] returns a successful outcome exactly
    when its wait has seen an element of class [cursor-pointer] and the
    click on it went through.  Apart from the polls of the wait it
    calls the browser at most once, for that click, and only after the
    wait has seen the element. *)
Theorem select_first_product_outcome {W : Type} (B : Browser W) (m : Machine W) :
  let target := S ".cursor-pointer" in
  (forall msg m',
     AgentPy.select_first_product B m = (Ok msg, m') ->
     (success (outcome_of msg) = true
      <-> exists m1,
            wait_until B (exists_ B target) 10%N m = (Ok true, m1)
            /\ click B target m1 = (Ok tt, m')))
  /\ exists polls clicks,
       calls (snd (AgentPy.select_first_product B m))
       = (calls m ++ repeat (CExists target) polls ++ clicks)%list
       /\ (clicks = []
           \/ (clicks = [CClick target]
               /\ exists m1,
                    wait_until B (exists_ B target) 10%N m = (Ok true, m1))).
Proof.
  apply (wait_then_click_run B (S ".cursor-pointer")
           "Successfully selected the first product."
           "Error selecting the first product: ");
    reflexivity.
Qed.

(** X4.  [add_to_cart] returns a successful outcome exactly when its
    wait has seen the "Add to Cart" button and the click on it went
    through.  Apart from the polls of the wait it calls the browser at
    most once, for that click, and only after the wait has seen the
    button. *)
Theorem add_to_cart_outcome {W : Type} (B : Browser W) (m : Machine W) :
  let target := Button "Add to Cart" in
  (forall msg m',
     AgentPy.add_to_cart B m = (Ok msg, m') ->
     (success (outcome_of msg) = true
      <-> exists m1,
            wait_until B (exists_ B target) 10%N m = (Ok true, m1)
            /\ click B target m1 = (Ok tt, m')))
  /\ exists polls clicks,
       calls (snd (AgentPy.add_to_cart B m))
       = (calls m ++ repeat (CExists target) polls ++ clicks)%list
       /\ (clicks = []
           \/ (clicks = [CClick target]
               /\ exists m1,
                    wait_until B (exists_ B target) 10%N m = (Ok true, m1))).
Proof.
  apply (wait_then_click_run B (Button "Add to Cart")
           "Successfully added the product to the cart."
           "Error adding product to the cart: ");
    reflexivity.
Qed.

Lemma select_first_product_outcome_witness :
  let B := static_browser (page_showing [S ".cursor-pointer"]) in
  success (outcome_of "Successfully selected the first product.") = true
  <-> exists m1,
        wait_until B (exists_ B (S ".cursor-pointer")) 10%N start = (Ok true, m1)
        /\ click B (S ".cursor-pointer") m1
           = (Ok tt, snd (AgentPy.select_first_product B start)).
Proof.
  intros B.
  refine (proj1 (select_first_product_outcome B start) _ _ _). reflexivity.
Defined.

Lemma add_to_cart_outcome_witness :
  let B := static_browser (page_showing [Button "Add to Cart"]) in
  success (outcome_of "Successfully added the product to the cart.") = true
  <-> exists m1,
        wait_until B (exists_ B (Button "Add to Cart")) 10%N start = (Ok true, m1)
        /\ click B (Button "Add to Cart") m1
           = (Ok tt, snd (AgentPy.add_to_cart B start)).
Proof.
  intros B.
  refine (proj1 (add_to_cart_outcome B start) _ _ _). reflexivity.
Defined.

(** ** The steps of search_product *)

Section SearchSteps.
Context {W : Type} (B : Browser W).

Lemma press_calls k m r m' :
  press B k m = (r, m') -> calls m' = (calls m ++ [CPress k])%list.
Proof. apply invoke_calls. Qed.

End SearchSteps.

(** A wait for a helium element polls at least once. *)
Lemma poll_exists_calls_pos {W : Type} (B : Browser W) g more m r m' :
  poll B (exists_ B g) more m = (r, m') ->
  exists n, calls m' = (calls m ++ repeat (CExists g) (Datatypes.S n))%list.
Proof.
  revert m. induction more as [| more IH]; intros m; rewrite poll_unfold;
    unfold bind; destruct (exists_ B g m) as [[value | e] m1] eqn:Hprobe;
    apply exists_calls in Hprobe.
  - destruct (truthy value); intros [= _ <-]; exists 0; exact Hprobe.
  - intros [= _ <-]. exists 0. exact Hprobe.
  - destruct (truthy value).
    + intros [= _ <-]. exists 0. exact Hprobe.
    + intros Hrest. destruct (IH _ Hrest) as (n & Hcalls).
      exists (Datatypes.S n). rewrite Hcalls, Hprobe, <- app_assoc. reflexivity.
  - intros [= _ <-]. exists 0. exact Hprobe.
Qed.

(** X5.  [search_product] clicks the "Search for products" link, types
    the product name, presses ENTER and then waits for the name to show
    up, in this order, and stops at the first step that raises: the
    name is typed only when the click returned, ENTER is pressed only
    when the typing returned, and the wait polls only when the key
    press returned.  It returns a successful outcome, "Successfully
    searched for '<name>'.", exactly when all four steps went
    through. *)
Theorem search_product_steps
    {W : Type} (B : Browser W) (product_name : string) (m : Machine W) :
  let entry := Link "Search for products" in
  let steps := [CClick entry; CWrite product_name; CPress ENTER] in
  (forall msg m',
     AgentPy.search_product B product_name m = (Ok msg, m') ->
     (success (outcome_of msg) = true
      <-> msg = "Successfully searched for '" ++ product_name ++ "'."
          /\ exists m1 m2 m3,
               click B entry m = (Ok tt, m1)
               /\ write B product_name m1 = (Ok tt, m2)
               /\ press B ENTER m2 = (Ok tt, m3)
               /\ wait_until B (exists_ B (Text product_name)) 10%N m3
                  = (Ok true, m')))
  /\ exists done polls,
       calls (snd (AgentPy.search_product B product_name m))
       = (calls m ++ firstn (Datatypes.S done) steps
          ++ repeat (CExists (Text product_name)) polls)%list
       /\ ((done = 0 /\ polls = 0
            /\ exists e m1, click B entry m = (Raised e, m1))
           \/ (done = 1 /\ polls = 0
               /\ exists m1 e m2,
                    click B entry m = (Ok tt, m1)
                    /\ write B product_name m1 = (Raised e, m2))
           \/ (done = 2 /\ polls = 0
               /\ exists m1 m2 e m3,
                    click B entry m = (Ok tt, m1)
                    /\ write B product_name m1 = (Ok tt, m2)
                    /\ press B ENTER m2 = (Raised e, m3))
           \/ (done = 2 /\ 0 < polls
               /\ exists m1 m2 m3,
                    click B entry m = (Ok tt, m1)
                    /\ write B product_name m1 = (Ok tt, m2)
                    /\ press B ENTER m2 = (Ok tt, m3))).
Proof.
  intros entry steps.
  unfold AgentPy.search_product, AgentPy.search_product_body, try_except, bind.
  fold entry.
  destruct (click B entry m) as [[[] | e] m1] eqn:Hclick;
    pose proof (click_calls B _ _ _ _ Hclick) as Hclicked.
  - destruct (write B product_name m1) as [[[] | e] m2] eqn:Hwrite;
      pose proof (write_calls B _ _ _ _ Hwrite) as Hwritten.
    + destruct (press B ENTER m2) as [[[] | e] m3] eqn:Hpress;
        pose proof (press_calls B _ _ _ _ Hpress) as Hpressed.
      * assert (Hall : exists m1' m2' m3',
                  (Ok tt, m1) = (Ok tt, m1')
                  /\ write B product_name m1' = (Ok tt, m2')
                  /\ press B ENTER m2' = (Ok tt, m3'))
          by (exists m1, m2, m3; repeat split; assumption).
        destruct (wait_until B (exists_ B (Text product_name)) 10%N m3)
          as [[found | e] m4] eqn:Hwait;
          destruct (poll_exists_calls_pos B _ _ _ _ _ Hwait) as (polls & Hpolls).
        -- pose proof (poll_ok_truthy B _ _ _ _ _ Hwait) as Hfound.
           change (found = true) in Hfound. subst found.
           split.
           ++ intros msg m' [= <- <-]. split; [| reflexivity].
              intros _. split; [reflexivity |].
              exists m1, m2, m3. repeat split; assumption.
           ++ exists 2, (Datatypes.S polls). cbn [snd ret firstn]. split.
              ** rewrite Hpolls, Hpressed, Hwritten, Hclicked, <- !app_assoc.
                 reflexivity.
              ** right. right. right. split; [reflexivity |].
                 split; [lia | exact Hall].
        -- split.
           ++ intros msg m'. destruct (is_Exception (exn_class e)); [| discriminate].
              intros [= <- <-]. split; [discriminate |].
              intros (_ & m1' & m2' & m3' & H1 & H2 & H3 & H4). congruence.
           ++ exists 2, (Datatypes.S polls). split.
              ** destruct (is_Exception (exn_class e)); cbn [snd ret firstn];
                   rewrite Hpolls, Hpressed, Hwritten, Hclicked, <- !app_assoc;
                   reflexivity.
              ** right. right. right. split; [reflexivity |].
                 split; [lia | exact Hall].
      * split.
        -- intros msg m'. destruct (is_Exception (exn_class e)); [| discriminate].
           intros [= <- <-]. split; [discriminate |].
           intros (_ & m1' & m2' & m3' & H1 & H2 & H3 & H4). congruence.
        -- exists 2, 0. split.
           ++ destruct (is_Exception (exn_class e)); cbn [snd ret firstn repeat];
                rewrite Hpressed, Hwritten, Hclicked, <- !app_assoc; reflexivity.
           ++ right. right. left. split; [reflexivity |]. split; [reflexivity |].
              exists m1, m2, e, m3. repeat split; assumption.
    + split.
      * intros msg m'. destruct (is_Exception (exn_class e)); [| discriminate].
        intros [= <- <-]. split; [discriminate |].
        intros (_ & m1' & m2' & m3' & H1 & H2 & H3 & H4). congruence.
      * exists 1, 0. split.
        -- destruct (is_Exception (exn_class e)); cbn [snd ret firstn repeat];
             rewrite Hwritten, Hclicked, <- !app_assoc; reflexivity.
        -- right. left. split; [reflexivity |]. split; [reflexivity |].
           exists m1, e, m2. split; [reflexivity | exact Hwrite].
  - split.
    + intros msg m'. destruct (is_Exception (exn_class e)); [| discriminate].
      intros [= <- <-]. split; [discriminate |].
      intros (_ & m1' & m2' & m3' & H1 & H2 & H3 & H4). congruence.
    + exists 0, 0. split.
      * destruct (is_Exception (exn_class e)); cbn [snd ret firstn repeat];
          rewrite Hclicked; reflexivity.
      * left. split; [reflexivity |]. split; [reflexivity |].
        exists e, m1. reflexivity.
Qed.

(** Searching for "bread" where it shows up, and on a page without the
    search link, where only the click is attempted. *)
Lemma search_product_steps_witness :
  (success (outcome_of "Successfully searched for 'bread'.") = true
   <-> "Successfully searched for 'bread'." = "Successfully searched for 'bread'."
       /\ exists m1 m2 m3,
            let B := static_browser
                       (page_showing [Link "Search for products"; Text "bread"]) in
            click B (Link "Search for products") start = (Ok tt, m1)
            /\ write B "bread" m1 = (Ok tt, m2)
            /\ press B ENTER m2 = (Ok tt, m3)
            /\ wait_until B (exists_ B (Text "bread")) 10%N m3
               = (Ok true, snd (AgentPy.search_product B "bread" start)))
  /\ AgentPy.search_product (static_browser (page_showing [])) "bread" start
     = (Ok "Error searching for 'bread': no such element",
        {| page := tt; step_log := fresh_log;
           calls := [CClick (Link "Search for products")] |}).
Proof.
  split.
  - refine (proj1 (search_product_steps
                     (static_browser
                        (page_showing [Link "Search for products"; Text "bread"]))
                     "bread" start) _ _ _).
    reflexivity.
  - reflexivity.
Defined.

(** ** What close_popups does with the overlays it finds *)

Section PopupFacts.
Context {W : Type} (B : Browser W).
Variables (matches : string -> list WebElement) (displayed : WebElement -> bool).
Hypothesis displayed_stable :
  forall el w, fst (br_is_displayed B el w) = Ok (displayed el).

Lemma invoke_answer {A : Type} (c : Call) (op : W -> result A * W) (v : A) m :
  fst (op (page m)) = Ok v ->
  invoke c op m
  = (Ok v, {| page := snd (op (page m)); step_log := step_log m;
              calls := calls m ++ [c] |}).
Proof. intros Hanswer. rewrite invoke_run, Hanswer. reflexivity. Qed.

Lemma for_each_app {A : Type} (xs ys : list A) (body : A -> M (W:=W) unit) m m1 :
  for_each xs body m = (Ok tt, m1) ->
  for_each (xs ++ ys) body m = for_each ys body m1.
Proof.
  revert m. induction xs as [| x xs IH]; intros m; cbn [for_each app].
  - intros [= <-]. reflexivity.
  - unfold bind. destruct (body x m) as [[[] | e] m0]; [| discriminate].
    apply IH.
Qed.

(** The loop over the matches of one selector, all of them hidden:
    each is tested and none is clicked. *)
Lemma test_hidden_run (elements : list WebElement) :
  (forall el, In el elements -> displayed el = false) ->
  forall m, exists w',
    for_each elements (fun element =>
      shown <- is_displayed B element ;;
      if shown then execute_script "arguments[0].click();" element else ret tt) m
    = (Ok tt,
       {| page := w'; step_log := step_log m;
          calls := calls m ++ map CIsDisplayed elements |}).
Proof.
  induction elements as [| el rest IH]; intros Hhidden m; cbn [for_each map].
  - exists (page m). rewrite app_nil_r. destruct m; reflexivity.
  - pose proof (displayed_stable el (page m)) as Hshown.
    rewrite (Hhidden el (or_introl eq_refl)) in Hshown.
    erewrite bind_ok.
    2:{ erewrite bind_ok;
          [| unfold is_displayed; apply invoke_answer; exact Hshown].
        reflexivity. }
    match goal with |- context [for_each rest _ ?m1] =>
      destruct (IH (fun x Hx => Hhidden x (or_intror Hx)) m1) as (w' & Hrest)
    end.
    exists w'. rewrite Hrest. cbn [calls step_log].
    rewrite <- app_assoc. reflexivity.
Qed.

(** The same loop when a displayed match comes after hidden ones: the
    click raises at once, and the matches after it are not tested. *)
Lemma test_shown_run (hidden rest : list WebElement) (shown : WebElement) :
  (forall el, In el hidden -> displayed el = false) ->
  displayed shown = true ->
  forall m, exists w',
    for_each (hidden ++ shown :: rest) (fun element =>
      shown <- is_displayed B element ;;
      if shown then execute_script "arguments[0].click();" element else ret tt) m
    = (Raised helium_has_no_driver,
       {| page := w'; step_log := step_log m;
          calls := calls m ++ map CIsDisplayed (hidden ++ [shown]) |}).
Proof.
  intros Hhidden Hshown m.
  destruct (test_hidden_run hidden Hhidden m) as (w1 & Hbefore).
  rewrite (for_each_app _ _ _ _ _ Hbefore). cbn [for_each].
  eexists. apply bind_raised.
  erewrite bind_ok.
  2:{ unfold is_displayed. apply invoke_answer.
      rewrite displayed_stable, Hshown. reflexivity. }
  cbv beta iota. unfold execute_script, raise. cbn [calls step_log page].
  rewrite map_app, <- app_assoc. reflexivity.
Qed.

(** The loop over selectors that all have matches, all hidden. *)
Lemma quiet_selectors_run (selectors : list string) :
  (forall selector w,
     In selector selectors ->
     fst (br_find_elements B selector w) = Ok (matches selector)) ->
  (forall selector, In selector selectors -> matches selector <> []) ->
  (forall selector el,
     In selector selectors -> In el (matches selector) -> displayed el = false) ->
  forall m, exists w',
    for_each selectors (fun selector =>
      elements <- until B (presence_of_all_elements_located B selector) 1%N ;;
      for_each elements (fun element =>
        shown <- is_displayed B element ;;
        if shown then execute_script "arguments[0].click();" element else ret tt)) m
    = (Ok tt,
       {| page := w'; step_log := step_log m;
          calls := calls m ++ quiet_calls matches selectors |}).
Proof.
  induction selectors as [| selector rest IH]; intros Hfind Hsome Hhidden m;
    cbn [for_each quiet_calls flat_map].
  - exists (page m). rewrite app_nil_r. destruct m; reflexivity.
  - assert (Hwait :
      until B (presence_of_all_elements_located B selector) 1%N m
      = (Ok (matches selector),
         {| page := snd (br_find_elements B selector (page m));
            step_log := step_log m;
            calls := calls m ++ [CFindElements selector] |})).
    { unfold until. rewrite poll_unfold.
      erewrite bind_ok;
        [| unfold presence_of_all_elements_located, find_elements;
           apply invoke_answer; apply Hfind; left; reflexivity].
      destruct (matches selector) as [| el els] eqn:Hmatches;
        [exfalso; apply (Hsome selector (or_introl eq_refl)); exact Hmatches |].
      reflexivity. }
    match type of Hwait with _ = (_, ?m1) =>
      destruct (test_hidden_run (matches selector)
                  (fun el => Hhidden selector el (or_introl eq_refl)) m1)
        as (w1 & Htests)
    end.
    erewrite bind_ok; [| run_ok Hwait; exact Htests].
    match goal with |- context [for_each rest _ ?m2] =>
      destruct (IH (fun s w Hin => Hfind s w (or_intror Hin))
                   (fun s Hin => Hsome s (or_intror Hin))
                   (fun s el Hin => Hhidden s el (or_intror Hin)) m2)
        as (w' & Hrest)
    end.
    exists w'. rewrite Hrest. cbn [calls step_log app].
    fold (quiet_calls matches rest).
    rewrite <- !app_assoc. reflexivity.
Qed.

(** The lookup of a selector that has matches returns them at the first
    poll. *)
Lemma until_matches (selector : string) m :
  (forall w, fst (br_find_elements B selector w) = Ok (matches selector)) ->
  matches selector <> [] ->
  until B (presence_of_all_elements_located B selector) 1%N m
  = (Ok (matches selector),
     {| page := snd (br_find_elements B selector (page m));
        step_log := step_log m;
        calls := calls m ++ [CFindElements selector] |}).
Proof.
  intros Hfind Hsome. unfold until. rewrite poll_unfold.
  erewrite bind_ok;
    [| unfold presence_of_all_elements_located, find_elements;
       apply invoke_answer; apply Hfind].
  destruct (matches selector) as [| el els]; [contradiction | reflexivity].
Qed.

End PopupFacts.

(** X6.  [close_popups] cannot close an overlay: its click goes through
    [helium.driver], which the helium module does not have.  On a page
    that does not change, at the first displayed match it meets (the
    selectors before have hidden matches only) the tool returns
    "Error closing popups: module 'helium' has no attribute 'driver'":
    nothing has been clicked, and the matches and selectors after that
    one are not visited. *)
Theorem close_popups_fails_at_displayed_overlay
    {W : Type} (B : Browser W)
    (matches : string -> list WebElement) (displayed : WebElement -> bool)
    (before after : list string) (selector : string)
    (hidden rest : list WebElement) (shown : WebElement) (m : Machine W) :
  AgentPy.modal_selectors = (before ++ selector :: after)%list ->
  (forall s w,
     In s (selector :: before) ->
     fst (br_find_elements B s w) = Ok (matches s)) ->
  (forall el w, fst (br_is_displayed B el w) = Ok (displayed el)) ->
  (forall s, In s before -> matches s <> []) ->
  (forall s el, In s before -> In el (matches s) -> displayed el = false) ->
  matches selector = (hidden ++ shown :: rest)%list ->
  (forall el, In el hidden -> displayed el = false) ->
  displayed shown = true ->
  exists w',
    AgentPy.close_popups B m
    = (Ok "Error closing popups: module 'helium' has no attribute 'driver'",
       {| page := w'; step_log := step_log m;
          calls := calls m
                   ++ quiet_calls matches before
                   ++ CFindElements selector
                      :: map CIsDisplayed (hidden ++ [shown]) |}).
Proof.
  intros Hsplit Hfind Hstable Hsome Hquiet Hmatches Hhidden Hshown.
  destruct (quiet_selectors_run B matches displayed Hstable before
              (fun s w Hin => Hfind s w (or_intror Hin)) Hsome Hquiet m)
    as (w1 & Hbefore).
  assert (Hnonempty : matches selector <> [])
    by (rewrite Hmatches; destruct hidden; discriminate).
  match type of Hbefore with _ = (_, ?m1) =>
    pose proof (until_matches B matches selector m1
                  (fun w => Hfind selector w (or_introl eq_refl)) Hnonempty)
      as Hwait
  end.
  match type of Hwait with _ = (_, ?m2) =>
    destruct (test_shown_run B displayed Hstable hidden rest shown
                Hhidden Hshown m2) as (w' & Htests)
  end.
  rewrite <- Hmatches in Htests at 1.
  exists w'.
  match type of Htests with _ = (_, ?m3) =>
    assert (Hbody : AgentPy.close_popups_body B m
                    = (Raised helium_has_no_driver, m3))
  end.
  { unfold AgentPy.close_popups_body. rewrite Hsplit.
    apply bind_raised. rewrite (for_each_app _ _ _ _ _ Hbefore).
    cbn [for_each]. apply bind_raised. run_ok Hwait. exact Htests. }
  unfold AgentPy.close_popups.
  rewrite (try_except_caught _ _ _ _ _ Hbody eq_refl).
  cbn [calls step_log]. unfold ret, str, helium_has_no_driver. cbn [exn_text].
  rewrite <- !app_assoc. reflexivity.
Qed.

(** A hidden and a displayed close button: the tool fails at the
    displayed one. *)
Lemma close_popups_fails_at_displayed_overlay_witness :
  exists w',
    AgentPy.close_popups (static_browser overlay_page) start
    = (Ok "Error closing popups: module 'helium' has no attribute 'driver'",
       {| page := w'; step_log := fresh_log;
          calls := [ CFindElements "button[class*='close']";
                     CIsDisplayed (Element 1); CIsDisplayed (Element 2) ] |}).
Proof.
  refine (close_popups_fails_at_displayed_overlay (static_browser overlay_page)
            overlay_matches overlay_displayed
            [] ["[class*='modal']"; ".modal-close"; ".close-modal"]
            "button[class*='close']" [Element 1] [] (Element 2) start
            _ _ _ _ _ _ _ _).
  - reflexivity.
  - intros s w _. reflexivity.
  - intros el w. reflexivity.
  - intros s [].
  - intros s el [].
  - reflexivity.
  - intros el [<- | []]. reflexivity.
  - reflexivity.
Defined.

(** X7.  [close_popups] stops at the first selector without a match:
    when the selectors before it have hidden matches only, those have
    been looked up and tested, the selectors after it are never looked
    up, and the outcome is the failure "Error closing popups: " with
    the text of the timeout. *)
Theorem close_popups_stops_at_first_absent
    {W : Type} (B : Browser W)
    (matches : string -> list WebElement) (displayed : WebElement -> bool)
    (before after : list string) (absent : string) (m : Machine W) :
  AgentPy.modal_selectors = (before ++ absent :: after)%list ->
  (forall selector w,
     In selector before ->
     fst (br_find_elements B selector w) = Ok (matches selector)) ->
  (forall el w, fst (br_is_displayed B el w) = Ok (displayed el)) ->
  (forall selector, In selector before -> matches selector <> []) ->
  (forall selector el,
     In selector before -> In el (matches selector) -> displayed el = false) ->
  (forall w, fst (br_find_elements B absent w) = Ok []) ->
  exists w',
    AgentPy.close_popups B m
    = (Ok ("Error closing popups: " ++ br_timeout_text B),
       {| page := w'; step_log := step_log m;
          calls := calls m
                   ++ quiet_calls matches before
                   ++ repeat (CFindElements absent)
                        (Datatypes.S (br_polls B 1%N)) |}).
Proof.
  intros Hsplit Hfind Hstable Hsome Hquiet Habsent.
  destruct (quiet_selectors_run B matches displayed Hstable before
              Hfind Hsome Hquiet m) as (w1 & Hbefore).
  match type of Hbefore with _ = (_, ?m1) =>
    destruct (poll_no_match B absent Habsent (br_polls B 1%N) m1) as (w' & Hwait)
  end.
  exists w'.
  match type of Hwait with _ = (_, ?m2) =>
    assert (Hbody : AgentPy.close_popups_body B m = (Raised (timeout_error B), m2))
  end.
  { unfold AgentPy.close_popups_body. rewrite Hsplit.
    apply bind_raised. rewrite (for_each_app _ _ _ _ _ Hbefore).
    cbn [for_each]. apply bind_raised. apply bind_raised. exact Hwait. }
  unfold AgentPy.close_popups.
  rewrite (try_except_caught _ _ _ _ _ Hbody eq_refl).
  cbn [calls step_log]. rewrite <- app_assoc. reflexivity.
Qed.

(** A page with one hidden close button and no other overlay. *)
Lemma close_popups_stops_at_first_absent_witness :
  exists w',
    AgentPy.close_popups (static_browser hidden_button_page) start
    = (Ok "Error closing popups: Message: ",
       {| page := w'; step_log := fresh_log;
          calls :=
            [ CFindElements "button[class*='close']"; CIsDisplayed (Element 7);
              CFindElements "[class*='modal']";
              CFindElements "[class*='modal']";
              CFindElements "[class*='modal']" ] |}).
Proof.
  refine (close_popups_stops_at_first_absent (static_browser hidden_button_page)
            close_button_matches (fun _ => false)
            ["button[class*='close']"] [".modal-close"; ".close-modal"]
            "[class*='modal']" start _ _ _ _ _ _).
  - reflexivity.
  - intros selector w _. reflexivity.
  - intros el w. reflexivity.
  - intros selector [<- | []]. discriminate.
  - intros selector el _ _. reflexivity.
  - intros w. reflexivity.
Defined.

(** X13.  [close_popups] returns "Popups closed." on a page where every
    overlay selector has matches and none of the matches is displayed:
    it has looked each selector up once, in the order of
    [modal_selectors], and tested each match for visibility, and that
    is all it has done. *)
Theorem close_popups_with_hidden_overlays
    {W : Type} (B : Browser W)
    (matches : string -> list WebElement) (m : Machine W) :
  (forall selector w,
     In selector AgentPy.modal_selectors ->
     fst (br_find_elements B selector w) = Ok (matches selector)) ->
  (forall selector,
     In selector AgentPy.modal_selectors -> matches selector <> []) ->
  (forall el w, fst (br_is_displayed B el w) = Ok false) ->
  exists w',
    AgentPy.close_popups B m
    = (Ok "Popups closed.",
       {| page := w'; step_log := step_log m;
          calls := calls m ++ quiet_calls matches AgentPy.modal_selectors |}).
Proof.
  intros Hfind Hsome Hhidden.
  destruct (quiet_selectors_run B matches (fun _ => false) Hhidden
              AgentPy.modal_selectors Hfind Hsome (fun _ _ _ _ => eq_refl) m)
    as (w' & Hloop).
  exists w'. unfold AgentPy.close_popups.
  apply try_except_ok. unfold AgentPy.close_popups_body.
  erewrite bind_ok; [reflexivity | exact Hloop].
Qed.

Lemma close_popups_with_hidden_overlays_witness :
  exists w',
    AgentPy.close_popups (static_browser hidden_overlay_page) start
    = (Ok "Popups closed.",
       {| page := w'; step_log := fresh_log;
          calls :=
            [ CFindElements "button[class*='close']";
              CIsDisplayed (Element 1); CIsDisplayed (Element 2);
              CFindElements "[class*='modal']"; CIsDisplayed (Element 3);
              CFindElements ".modal-close"; CIsDisplayed (Element 2);
              CFindElements ".close-modal"; CIsDisplayed (Element 4) ] |}).
Proof.
  refine (close_popups_with_hidden_overlays (static_browser hidden_overlay_page)
            overlay_matches start _ _ _).
  - intros selector w _. reflexivity.
  - intros selector [<- | [<- | [<- | [<- | []]]]]; discriminate.
  - intros el w. reflexivity.
Defined.

(** ** A control that exists but cannot be used *)

(** X8.  In [handle_location_popup] a control that exists but whose
    click raises ends the tool with its error message: the controls
    after it are not looked for.  In the PIN branch the PIN has been
    typed by the time the click on "Confirm" raises. *)
Theorem handle_location_popup_click_failure
    {W : Type} (B : Browser W) (m : Machine W) :
  let detect := Button "Detect my location" in
  let allow := Button "Allow" in
  let pin := Text "Enter your Pin Code" in
  let m1 := snd (sleep B 2%N m) in
  (forall m2 e m3,
     exists_ B detect m1 = (Ok true, m2) ->
     click B detect m2 = (Raised e, m3) ->
     is_Exception (exn_class e) = true ->
     AgentPy.handle_location_popup B m
     = (Ok ("Error handling location popup: " ++ str e), m3)
     /\ calls m3 = (calls m ++ [CSleep 2%N; CExists detect; CClick detect])%list)
  /\ (forall m2 m3 e m4,
        exists_ B detect m1 = (Ok false, m2) ->
        exists_ B allow m2 = (Ok true, m3) ->
        click B allow m3 = (Raised e, m4) ->
        is_Exception (exn_class e) = true ->
        AgentPy.handle_location_popup B m
        = (Ok ("Error handling location popup: " ++ str e), m4)
        /\ calls m4
           = (calls m ++ [CSleep 2%N; CExists detect; CExists allow;
                          CClick allow])%list)
  /\ (forall m2 m3 m4 m5 e m6,
        exists_ B detect m1 = (Ok false, m2) ->
        exists_ B allow m2 = (Ok false, m3) ->
        exists_ B pin m3 = (Ok true, m4) ->
        write B "400001" m4 = (Ok tt, m5) ->
        click B (Label "Confirm") m5 = (Raised e, m6) ->
        is_Exception (exn_class e) = true ->
        AgentPy.handle_location_popup B m
        = (Ok ("Error handling location popup: " ++ str e), m6)
        /\ calls m6
           = (calls m ++ [CSleep 2%N; CExists detect; CExists allow; CExists pin;
                          CWrite "400001"; CClick (Label "Confirm")])%list).
Proof.
  intros detect allow pin m1.
  unfold AgentPy.handle_location_popup, AgentPy.handle_location_popup_body.
  fold detect allow pin.
  split; [| split].
  - intros m2 e m3 Hdetect Hclick Hclass. split; [| subst m1; journal].
    erewrite try_except_caught; [reflexivity | | exact Hclass].
    run_ok (sleep_run B 2%N m). fold m1. run_ok Hdetect.
    apply bind_raised. exact Hclick.
  - intros m2 m3 e m4 Hdetect Hallow Hclick Hclass. split; [| subst m1; journal].
    erewrite try_except_caught; [reflexivity | | exact Hclass].
    run_ok (sleep_run B 2%N m). fold m1. run_ok Hdetect. run_ok Hallow.
    apply bind_raised. exact Hclick.
  - intros m2 m3 m4 m5 e m6 Hdetect Hallow Hpin Hwrite Hclick Hclass.
    split; [| subst m1; journal].
    erewrite try_except_caught; [reflexivity | | exact Hclass].
    run_ok (sleep_run B 2%N m). fold m1. run_ok Hdetect. run_ok Hallow.
    run_ok Hpin. run_ok Hwrite. apply bind_raised. exact Hclick.
Qed.

(** Every control is there and something covers the page: the first
    click fails and nothing else is tried. *)
Lemma handle_location_popup_click_failure_witness :
  AgentPy.handle_location_popup covered_browser start
  = (Ok "Error handling location popup: element not interactable",
     {| page := tt; step_log := fresh_log;
        calls := [CSleep 2%N; CExists (Button "Detect my location");
                  CClick (Button "Detect my location")] |}).
Proof.
  refine (proj1 (proj1 (handle_location_popup_click_failure covered_browser start)
                   _ covered _ _ _ _)); reflexivity.
Defined.

(** ** save_screenshot when the driver fails *)

(** X9.  [save_screenshot] has no handler of its own.  When it raises,
    the text of the step log is as it was, and the images are as they
    were or are the one fresh screenshot; the latter happens when the
    screenshot was taken and reading the address then raised, whatever
    the class of that error.  Both scripts have the same callback. *)
Theorem save_screenshot_failure {W : Type} (B : Browser W) (m : Machine W) :
  ZeptoPy.save_screenshot B m = AgentPy.save_screenshot B m
  /\ (forall e m',
        AgentPy.save_screenshot B m = (Raised e, m') ->
        observations (step_log m') = observations (step_log m)
        /\ (observations_images (step_log m') = observations_images (step_log m)
            \/ exists image, observations_images (step_log m') = Some [image]))
  /\ (forall d bytes image e w1 w2 w3,
        br_get_driver B (br_elapse B 1%N (page m)) = (Ok (Some d), w1) ->
        br_get_screenshot_as_png B d w1 = (Ok bytes, w2) ->
        br_Image_open B bytes = Ok image ->
        br_current_url B d w2 = (Raised e, w3) ->
        AgentPy.save_screenshot B m
        = (Raised e,
           {| page := w3;
              step_log := {| observations := observations (step_log m);
                             observations_images := Some [image] |};
              calls := calls m ++ [CSleep 1%N; CGetDriver;
                                   CScreenshot d; CCurrentUrl d] |})).
Proof.
  split; [reflexivity |].
  unfold AgentPy.save_screenshot, bind, sleep, get_driver, get_screenshot_as_png,
    Image_open, current_url, get_step_log, set_step_log, raise, ret.
  rewrite !invoke_run. cbn [page step_log calls fst snd].
  split.
  - intros e m'.
    destruct (br_get_driver B (br_elapse B 1%N (page m))) as [[[d |] | e0] w1];
      cbn [page step_log calls fst snd observations observations_images];
      try (intros [= _ <-]; split; [reflexivity | left; reflexivity]).
    rewrite !invoke_run. cbn [page step_log calls fst snd].
    destruct (br_get_screenshot_as_png B d w1) as [[bytes | e0] w2];
      cbn [page step_log calls fst snd observations observations_images];
      try (intros [= _ <-]; split; [reflexivity | left; reflexivity]).
    destruct (br_Image_open B bytes) as [image | e0];
      cbn [page step_log calls fst snd observations observations_images];
      try (intros [= _ <-]; split; [reflexivity | left; reflexivity]).
    rewrite !invoke_run. cbn [page step_log calls fst snd].
    destruct (br_current_url B d w2) as [[url | e0] w3];
      cbn [page step_log calls fst snd observations observations_images].
    + destruct (observations (step_log m)) as [[| c text] |];
        cbn [truthy Truthy_option Truthy_string]; discriminate.
    + intros [= _ <-]. split; [reflexivity |]. right. exists image. reflexivity.
  - intros d bytes image e w1 w2 w3 Hdriver Hshot Himage Hurl.
    rewrite Hdriver. cbn [page step_log calls fst snd].
    rewrite !invoke_run. cbn [page step_log calls fst snd].
    rewrite Hshot. cbn [page step_log calls fst snd].
    rewrite Himage.
    rewrite !invoke_run. cbn [page step_log calls fst snd].
    rewrite Hurl.
    cbn [page step_log calls fst snd observations observations_images].
    rewrite <- !app_assoc. reflexivity.
Qed.

(** The session dies after the screenshot: the image is in the step
    log, the text is unchanged and the driver's error comes out. *)
Lemma save_screenshot_failure_witness :
  AgentPy.save_screenshot dying_browser
    (start_with "Successfully navigated to Zepto.")
  = (Raised session_lost,
     {| page := tt;
        step_log :=
          {| observations := Some "Successfully navigated to Zepto.";
             observations_images :=
               Some [ {| size := (1000, 1300)%N; png := ["P"; "N"; "G"]%char |} ] |};
        calls := [CSleep 1%N; CGetDriver; CScreenshot (Driver 0);
                  CCurrentUrl (Driver 0)] |}).
Proof.
  refine (proj2 (proj2 (save_screenshot_failure dying_browser
                          (start_with "Successfully navigated to Zepto.")))
            (Driver 0) ["P"; "N"; "G"]%char
            {| size := (1000, 1300)%N; png := ["P"; "N"; "G"]%char |}
            session_lost tt tt tt _ _ _ _); reflexivity.
Defined.

(** ** What scrape_categories does to the page, and what it lists *)

Section ScrapeJournal.
Context {W : Type} (B : Browser W).

(** A presence wait only looks the selector up. *)
Lemma poll_presence_calls selector more m r m' :
  poll B (presence_of_element_located B selector) more m = (r, m') ->
  exists n, calls m' = (calls m ++ repeat (CFindElements selector) n)%list.
Proof.
  revert m. induction more as [| more IH]; intros m; rewrite poll_unfold;
    unfold presence_of_element_located, bind, ret;
    destruct (find_elements B selector m) as [[elements | e] m1] eqn:Hfind;
    apply invoke_calls in Hfind.
  - destruct (truthy (hd_error elements)); intros [= _ <-]; exists 1; exact Hfind.
  - intros [= _ <-]. exists 1. exact Hfind.
  - destruct (truthy (hd_error elements)).
    + intros [= _ <-]. exists 1. exact Hfind.
    + intros Hrest. destruct (IH _ Hrest) as (n & Hcalls).
      exists (Datatypes.S n). rewrite Hcalls, Hfind, <- app_assoc. reflexivity.
  - intros [= _ <-]. exists 1. exact Hfind.
Qed.

(** The loop over the images only reads their alt attributes, in page
    order, up to the first read that raises. *)
Lemma collect_alt_texts_calls imgs :
  forall names m r m',
    ZeptoPy.collect_alt_texts B imgs names m = (r, m') ->
    exists k,
      calls m'
      = (calls m ++ map (fun img => CGetAttribute img "alt") (firstn k imgs))%list.
Proof.
  induction imgs as [| img rest IH]; intros names m r m';
    cbn [ZeptoPy.collect_alt_texts].
  - intros [= _ <-]. exists 0. cbn [firstn map]. rewrite app_nil_r. reflexivity.
  - unfold bind.
    destruct (get_attribute B img "alt" m) as [[alt | e] m1] eqn:Hread;
      apply invoke_calls in Hread.
    + intros Hrest.
      assert (Hk : exists k,
                calls m'
                = (calls m1
                   ++ map (fun img => CGetAttribute img "alt") (firstn k rest))%list).
      { destruct alt as [text |]; [destruct (truthy text) |];
          eapply IH; exact Hrest. }
      destruct Hk as (k & Hcalls). exists (Datatypes.S k).
      cbn [firstn map]. rewrite Hcalls, Hread, <- app_assoc. reflexivity.
    + intros [= _ <-]. exists 1. destruct rest; exact Hread.
Qed.

End ScrapeJournal.

(** X10.  [scrape_categories] only reads the page: in every run, also
    one that ends in an error, its calls are lookups of the category
    selector followed by reads of the alt attribute.  The attributes
    read are those of the first images, in page order, of the list that
    the lookup after the wait returned.  It never navigates, clicks,
    types or runs a script. *)
Theorem scrape_categories_only_reads {W : Type} (B : Browser W) (m : Machine W) :
  exists lookups read,
    calls (snd (ZeptoPy.scrape_categories B m))
    = (calls m
       ++ repeat (CFindElements ZeptoPy.category_selector) lookups
       ++ map (fun img => CGetAttribute img "alt") read)%list
    /\ (read = []
        \/ exists found m1 imgs m2 k,
             until B (presence_of_element_located B ZeptoPy.category_selector)
               3%N m
             = (Ok found, m1)
             /\ find_elements B ZeptoPy.category_selector m1 = (Ok imgs, m2)
             /\ read = firstn k imgs).
Proof.
  unfold ZeptoPy.scrape_categories, ZeptoPy.scrape_categories_body, try_except, bind.
  destruct (until B (presence_of_element_located B ZeptoPy.category_selector) 3%N m)
    as [[found | e] m1] eqn:Hwait;
    destruct (poll_presence_calls B _ _ _ _ _ Hwait) as (n & Hpolls).
  - destruct (find_elements B ZeptoPy.category_selector m1)
      as [[imgs | e] m2] eqn:Hfind;
      pose proof (invoke_calls _ _ _ _ _ Hfind) as Hfound.
    + assert (Hlooked :
                calls m2
                = (calls m ++ repeat (CFindElements ZeptoPy.category_selector)
                                (Datatypes.S n))%list).
      { rewrite Hfound, Hpolls, <- app_assoc, <- repeat_cons. reflexivity. }
      destruct imgs as [| img rest].
      * exists (Datatypes.S n), []. split; [| left; reflexivity].
        unfold ret; cbn [map snd negb truthy Truthy_list].
        rewrite app_nil_r. exact Hlooked.
      * change (negb (truthy (img :: rest))) with false. cbv beta iota.
        destruct (ZeptoPy.collect_alt_texts B (img :: rest) [] m2)
          as [[names | e] m3] eqn:Hcollect;
          destruct (collect_alt_texts_calls B _ _ _ _ _ Hcollect) as (k & Hread);
          exists (Datatypes.S n), (firstn k (img :: rest));
          (split;
           [| right; exists found, m1, (img :: rest), m2, k;
              split; [reflexivity | split; [exact Hfind | reflexivity]]]).
        -- destruct (truthy names); unfold ret; cbv beta iota; cbn [snd];
             rewrite Hread, Hlooked, <- app_assoc; reflexivity.
        -- destruct (is_Exception (exn_class e)); unfold ret; cbv beta iota;
             cbn [snd]; rewrite Hread, Hlooked, <- app_assoc; reflexivity.
    + exists (Datatypes.S n), []. split; [| left; reflexivity].
      destruct (is_Exception (exn_class e)); unfold ret; cbv beta iota;
        cbn [snd map];
        rewrite app_nil_r, Hfound, Hpolls, <- app_assoc, <- repeat_cons;
        reflexivity.
  - exists n, []. split; [| left; reflexivity].
    destruct (is_Exception (exn_class e)); unfold ret; cbv beta iota;
      cbn [snd map]; rewrite app_nil_r; exact Hpolls.
Qed.

(** Stripping leaves no white space at either end. *)

Section StripFacts.
Variable sp1 : ascii -> bool.
Variable sp2 : ascii -> ascii -> bool.
Variable sp3 : ascii -> ascii -> ascii -> bool.

Lemma strip_start_bounded (n : nat) :
  forall s, String.length s <= n ->
    space_at_start sp1 sp2 sp3 (strip_start sp1 sp2 sp3 s) = false
    /\ exists removed, s = removed ++ strip_start sp1 sp2 sp3 s.
Proof.
  induction n as [| n IH]; intros s Hlen.
  - destruct s; [| simpl in Hlen; lia].
    split; [reflexivity | exists EmptyString; reflexivity].
  - destruct s as [| a r1]; [split; [reflexivity | exists EmptyString; reflexivity] |].
    cbn [String.length] in Hlen. cbn [strip_start].
    destruct (sp1 a) eqn:H1.
    { destruct (IH r1 ltac:(lia)) as (Hstart & removed & Hrest).
      split; [exact Hstart |].
      exists (String a removed). cbn [append]. rewrite <- Hrest. reflexivity. }
    destruct r1 as [| b r2].
    { split; [cbn [space_at_start]; rewrite H1; reflexivity |].
      exists EmptyString. reflexivity. }
    cbn [String.length] in Hlen.
    destruct (sp2 a b) eqn:H2.
    { destruct (IH r2 ltac:(lia)) as (Hstart & removed & Hrest).
      split; [exact Hstart |].
      exists (String a (String b removed)). cbn [append].
      rewrite <- Hrest. reflexivity. }
    destruct r2 as [| c r3].
    { split; [cbn [space_at_start]; rewrite H1, H2; reflexivity |].
      exists EmptyString. reflexivity. }
    cbn [String.length] in Hlen.
    destruct (sp3 a b c) eqn:H3.
    { destruct (IH r3 ltac:(lia)) as (Hstart & removed & Hrest).
      split; [exact Hstart |].
      exists (String a (String b (String c removed))). cbn [append].
      rewrite <- Hrest. reflexivity. }
    split; [cbn [space_at_start]; rewrite H1, H2, H3; reflexivity |].
    exists EmptyString. reflexivity.
Qed.

Lemma strip_start_trimmed (s : string) :
  space_at_start sp1 sp2 sp3 (strip_start sp1 sp2 sp3 s) = false.
Proof. apply (strip_start_bounded (String.length s) s (le_n _)). Qed.

Lemma strip_start_suffix (s : string) :
  exists removed, s = removed ++ strip_start sp1 sp2 sp3 s.
Proof. apply (strip_start_bounded (String.length s) s (le_n _)). Qed.

(** A text that starts with white space still does so when it is
    continued. *)
Lemma space_at_start_continued (s rest : string) :
  space_at_start sp1 sp2 sp3 s = true ->
  space_at_start sp1 sp2 sp3 (s ++ rest) = true.
Proof.
  destruct s as [| a [| b [| c r3]]]; cbn [space_at_start append];
    try discriminate.
  - rewrite orb_false_r. intros ->. reflexivity.
  - rewrite orb_false_r. intros H. apply orb_true_iff in H.
    destruct H as [-> | ->]; [reflexivity |].
    rewrite orb_true_l. apply orb_true_r.
  - intros H. exact H.
Qed.

End StripFacts.

Lemma list_ascii_of_string_app (a b : string) :
  list_ascii_of_string (a ++ b)
  = (list_ascii_of_string a ++ list_ascii_of_string b)%list.
Proof. induction a as [| c a IH]; simpl; [| rewrite IH]; reflexivity. Qed.

Lemma string_of_list_ascii_app (a b : list ascii) :
  string_of_list_ascii (a ++ b) = string_of_list_ascii a ++ string_of_list_ascii b.
Proof. induction a as [| c a IH]; simpl; [| rewrite IH]; reflexivity. Qed.

Lemma reverse_app (a b : string) : reverse (a ++ b) = reverse b ++ reverse a.
Proof.
  unfold reverse.
  rewrite list_ascii_of_string_app, rev_app_distr, string_of_list_ascii_app.
  reflexivity.
Qed.

Lemma reverse_involutive (s : string) : reverse (reverse s) = s.
Proof.
  unfold reverse.
  rewrite list_ascii_of_string_of_list_ascii, rev_involutive,
    string_of_list_ascii_of_string.
  reflexivity.
Qed.

Lemma lstrip_trimmed (s : string) : starts_with_space (lstrip s) = false.
Proof. apply strip_start_trimmed. Qed.

(** What [rstrip] returns is the text without some of its end. *)
Lemma rstrip_prefix (s : string) : exists removed, s = rstrip s ++ removed.
Proof.
  unfold rstrip.
  destruct (strip_start_suffix isspace (fun a b => isspace2 b a)
              (fun a b c => isspace3 c b a) (reverse s)) as (removed & Hrev).
  exists (reverse removed).
  rewrite <- reverse_app, <- Hrev, reverse_involutive. reflexivity.
Qed.

Lemma rstrip_keeps_start (s : string) :
  starts_with_space s = false -> starts_with_space (rstrip s) = false.
Proof.
  intros Hstart. destruct (rstrip_prefix s) as (removed & Hs).
  destruct (starts_with_space (rstrip s)) eqn:Hkept; [| reflexivity].
  apply (space_at_start_continued _ _ _ _ removed) in Hkept.
  rewrite <- Hs in Hkept. unfold starts_with_space in Hstart. congruence.
Qed.

Lemma rstrip_trimmed (s : string) : ends_with_space (rstrip s) = false.
Proof.
  unfold ends_with_space, rstrip. rewrite reverse_involutive.
  apply strip_start_trimmed.
Qed.

Lemma strip_trimmed (s : string) :
  starts_with_space (strip s) = false /\ ends_with_space (strip s) = false.
Proof.
  unfold strip. split.
  - apply rstrip_keeps_start, lstrip_trimmed.
  - apply rstrip_trimmed.
Qed.

Section ScrapeNames.
Context {W : Type} (B : Browser W).

(** The names the loop adds are stripped ones. *)
Lemma collect_alt_texts_trimmed imgs :
  forall names0 m names m',
    ZeptoPy.collect_alt_texts B imgs names0 m = (Ok names, m') ->
    (forall name, In name names0 ->
       starts_with_space name = false /\ ends_with_space name = false) ->
    forall name, In name names ->
      starts_with_space name = false /\ ends_with_space name = false.
Proof.
  induction imgs as [| img rest IH]; intros names0 m names m';
    cbn [ZeptoPy.collect_alt_texts].
  - intros [= <- _] Hgiven. exact Hgiven.
  - unfold bind.
    destruct (get_attribute B img "alt" m) as [[[text |] | e] m1];
      [| apply IH | discriminate].
    destruct (truthy text); [| apply IH].
    intros Hrest Hgiven. apply (IH _ _ _ _ Hrest).
    intros name Hin. apply in_app_or in Hin.
    destruct Hin as [Hin | [<- | []]]; [apply Hgiven; exact Hin |].
    apply strip_trimmed.
Qed.

End ScrapeNames.

(** X11.  Whatever the page does, a message returned by
    [scrape_categories] is one of four: "No category images found.
    Possibly incorrect selector.", "No alt text found in category
    images.", "Error scraping categories: " with the text of an error,
    or "Categories found: " followed by at least one name, the names
    joined by ", " and none of them with white space at its start or
    end. *)
Theorem scrape_categories_messages
    {W : Type} (B : Browser W) (m : Machine W) msg m' :
  ZeptoPy.scrape_categories B m = (Ok msg, m') ->
  msg = "No category images found. Possibly incorrect selector."
  \/ msg = "No alt text found in category images."
  \/ (exists e, msg = "Error scraping categories: " ++ str e)
  \/ (exists names,
        names <> []
        /\ msg = "Categories found: " ++ join ", " names
        /\ forall name, In name names ->
             starts_with_space name = false /\ ends_with_space name = false).
Proof.
  unfold ZeptoPy.scrape_categories, ZeptoPy.scrape_categories_body, try_except, bind.
  destruct (until B (presence_of_element_located B ZeptoPy.category_selector) 3%N m)
    as [[found | e] m1].
  - destruct (find_elements B ZeptoPy.category_selector m1) as [[imgs | e] m2].
    + destruct imgs as [| img rest].
      * intros [= <- _]. left. reflexivity.
      * change (negb (truthy (img :: rest))) with false. cbv beta iota.
        destruct (ZeptoPy.collect_alt_texts B (img :: rest) [] m2)
          as [[names | e] m3] eqn:Hcollect.
        -- destruct names as [| name names].
           ++ intros [= <- _]. right. left. reflexivity.
           ++ intros [= <- _]. right. right. right.
              exists (name :: names). split; [discriminate |].
              split; [reflexivity |].
              apply (collect_alt_texts_trimmed B _ _ _ _ _ Hcollect).
              intros n [].
        -- destruct (is_Exception (exn_class e)); [| discriminate].
           intros [= <- _]. right. right. left. exists e. reflexivity.
    + destruct (is_Exception (exn_class e)); [| discriminate].
      intros [= <- _]. right. right. left. exists e. reflexivity.
  - destruct (is_Exception (exn_class e)); [| discriminate].
    intros [= <- _]. right. right. left. exists e. reflexivity.
Qed.

Lemma scrape_categories_messages_witness :
  let msg := "Categories found: Fruits & Vegetables, Dairy, Bread & Eggs" in
  msg = "No category images found. Possibly incorrect selector."
  \/ msg = "No alt text found in category images."
  \/ (exists e, msg = "Error scraping categories: " ++ str e)
  \/ (exists names,
        names <> []
        /\ msg = "Categories found: " ++ join ", " names
        /\ forall name, In name names ->
             starts_with_space name = false /\ ends_with_space name = false).
Proof.
  intros msg.
  apply (scrape_categories_messages (static_browser (category_page grocery_alts))
           start msg
           (snd (ZeptoPy.scrape_categories
                   (static_browser (category_page grocery_alts)) start))).
  vm_compute. reflexivity.
Defined.

(** Alt texts that are not empty and consist of white space only give
    one empty name each. *)
Lemma stripped_alt_texts_blank (alts : list (option string)) :
  (forall alt, In alt alts ->
     exists text, alt = Some text /\ text <> EmptyString /\ strip text = EmptyString) ->
  stripped_alt_texts alts = repeat EmptyString (length alts).
Proof.
  induction alts as [| alt rest IH]; intros Hblank; [reflexivity |].
  destruct (Hblank alt (or_introl eq_refl)) as (text & -> & Htext & Hstrip).
  cbn [stripped_alt_texts flat_map length repeat app].
  destruct text as [| c text]; [contradiction |].
  rewrite Hstrip. cbn [app]. f_equal.
  apply IH. intros a Ha. apply Hblank. right. exact Ha.
Qed.

(** X12.  An alt text made of white space only counts as an alt text:
    it passes the test [if alt_text:] and is stripped afterwards.  When
    the wait has seen a match and every image of the lookup has such an
    alt text, the result is "Categories found: " followed by one empty
    name for each image, joined by ", ", and not "No alt text found in
    category images.". *)
Theorem scrape_categories_blank_alt_texts
    {W : Type} (B : Browser W) (m : Machine W)
    found m1 img rest m2 (alt_of : WebElement -> option string) :
  until B (presence_of_element_located B ZeptoPy.category_selector) 3%N m
  = (Ok found, m1) ->
  find_elements B ZeptoPy.category_selector m1 = (Ok (img :: rest), m2) ->
  (forall el w,
     In el (img :: rest) ->
     fst (br_get_attribute B el "alt" w) = Ok (alt_of el)) ->
  (forall el,
     In el (img :: rest) ->
     exists text,
       alt_of el = Some text /\ text <> EmptyString /\ strip text = EmptyString) ->
  fst (ZeptoPy.scrape_categories B m)
  = Ok ("Categories found: "
        ++ join ", " (repeat EmptyString (Datatypes.S (length rest)))).
Proof.
  intros Hwait Hfind Halt Hblank.
  destruct (collect_alt_texts_run B alt_of (img :: rest) Halt [] m2)
    as (m3 & Hcollect).
  rewrite stripped_alt_texts_blank in Hcollect.
  2:{ intros alt Hin. apply in_map_iff in Hin. destruct Hin as (el & <- & Hin).
      apply Hblank. exact Hin. }
  rewrite length_map in Hcollect. cbn [app length] in Hcollect.
  unfold ZeptoPy.scrape_categories.
  erewrite try_except_ok; [reflexivity |].
  unfold ZeptoPy.scrape_categories_body.
  run_ok Hwait. run_ok Hfind.
  change (negb (truthy (img :: rest))) with false. cbv beta iota.
  run_ok Hcollect. reflexivity.
Qed.

(** Three images whose alt text is a blank each. *)
Lemma scrape_categories_blank_alt_texts_witness :
  fst (ZeptoPy.scrape_categories
         (static_browser (category_page (fun _ => Some " "))) start)
  = Ok "Categories found: , , ".
Proof.
  refine (scrape_categories_blank_alt_texts
            (static_browser (category_page (fun _ => Some " "))) start
            (Some (Element 1)) _ (Element 1) [Element 2; Element 3] _
            (fun _ => Some " ") _ _ _ _).
  - reflexivity.
  - reflexivity.
  - intros el w _. reflexivity.
  - intros el _. exists " ". repeat split. discriminate.
Defined.
